(** * Smart inventory optimisation: the two simulation engines

    A shallow embedding of the day-by-day inventory simulation of the
    repository, and the properties of its specification.

    - [WhatIf] embeds the package [what_if_simulator]
      ([order_manager.py], [core.py], [data_loader.py], [utils.py],
      [simulator.py]).
    - [Dashboard] embeds the class [InventorySimulator] of [sim.py].

    Conventions.  A [datetime.date] (and a midnight [Timestamp]) is its
    proleptic Gregorian ordinal ([date.toordinal()]), so that
    [date + timedelta(days=n)] is integer addition.  Python [int]s are [Z].
    Python [float]s are exact rationals [Q]: rounding error of the binary
    representation is not modelled.  A raised exception is the [Raise]
    branch of [result]. *)

From Stdlib Require Import ZArith QArith Qround Lia Lqa List String.
From stdpp Require Import base option list gmap.

Local Open Scope Z_scope.

(** ** Exceptions *)

Inductive exn : Set :=
| ValueError
| KeyError
| IndexError
| OrderFailedError.

Inductive result (A : Type) : Type :=
| Ok (a : A)
| Raise (e : exn).
Arguments Ok {A} a.
Arguments Raise {A} e.

#[global] Instance result_ret : MRet result := fun _ a => Ok a.
#[global] Instance result_bind : MBind result := fun _ _ f m =>
  match m with
  | Ok a => f a
  | Raise e => Raise e
  end.

Definition is_Ok {A} (r : result A) : bool :=
  match r with Ok _ => true | Raise _ => false end.

(** ** Calendar *)

Abbreviation date := Z (only parsing).

(** [date.weekday()]: Monday is 0, Sunday is 6; ordinal 1 is a Monday. *)
Definition weekday (d : date) : Z := (d + 6) mod 7.

(** [pd.date_range(start, end)]: every calendar day from [start] to [end]
    inclusive, empty when [end < start]. *)
Definition date_range (start_date end_date : date) : list date :=
  map (fun i => start_date + Z.of_nat i)
      (seq 0 (Z.to_nat (end_date - start_date + 1))).

(** pandas' [BusinessDay(n)] applied to a date ([BusinessDay._apply] with
    its helper [_adjust_ndays]); [n // 5] is floor division. *)
Definition adjust_ndays (n wday weeks : Z) : Z :=
  let n := if (n <=? 0) && (4 <? wday) then n + 1 else n in
  let n := n - 5 * weeks in
  if (n =? 0) && (4 <? wday) then 4 - wday
  else if 4 <? wday then (7 - wday) + (n - 1)
  else if wday + n <=? 4 then n
  else n + 2.

Definition BusinessDay_apply (n : Z) (other : date) : date :=
  let weeks := n / 5 in
  other + (7 * weeks + adjust_ndays n (weekday other) weeks).

(** ** Numbers *)

(** [a > b] on floats. *)
Definition Qgtb (a b : Q) : bool := negb (Qle_bool a b).

(** [int(x)] on a float: truncation toward zero. *)
Definition int_of_float (x : Q) : Z :=
  if Qle_bool 0 x then Qfloor x else Qceiling x.

(** [round(x, 2)]: to the nearest hundredth, ties to the even neighbour. *)
Definition round_half_even (y : Q) : Z :=
  let f := Qfloor y in
  match Qcompare (y - inject_Z f) (1 # 2) with
  | Lt => f
  | Gt => f + 1
  | Eq => if Z.even f then f else f + 1
  end.

Definition round2 (x : Q) : Q :=
  (inject_Z (round_half_even (x * 100)) / 100)%Q.

(** ** The ambient random generator

    [random.random()] of the module-level generator of Python's [random]:
    the next draw of a stream in [0, 1) that no argument of the simulation
    selects.  [cursor] counts the draws taken so far. *)
Record Rng := mkRng { draws : nat -> Q; cursor : nat }.

Definition random_random (g : Rng) : Q * Rng :=
  (draws g (cursor g), mkRng (draws g) (S (cursor g))).

(** * The package [what_if_simulator] *)

Module WhatIf.

(** ** Rows of the CSV files ([data_loader.py]) *)

Record SupplierData := mkSupplier {
  supplier_id : string;
  lead_time : Z;
  MOQ : Z;
  reliability : Q;
  cost : Q
}.

Record PolicyData := mkPolicy {
  policy_product_id : string;
  eoq : Z;
  reorder_point : Z;
  safety_stock : Z;
  unit_cost : Q
}.

Record LedgerRow := mkLedgerRow {
  ledger_date : date;
  ledger_product_id : string;
  opening_stock : Z;
  ledger_supplier_id : string
}.

Record ForecastRow := mkForecastRow {
  forecast_date : date;
  forecast_product_id : string;
  predicted_units : Z
}.

(** The four files under [data_dir], already parsed. *)
Record DataLoader := mkLoader {
  inventory_policy : list PolicyData;
  inventory_ledger : list LedgerRow;
  clean_forecast : list ForecastRow;
  suppliers1 : list SupplierData
}.

Record ProductData := mkProductData {
  policy : PolicyData;
  ledger : list LedgerRow;
  forecast : list ForecastRow;
  supplier : SupplierData
}.

(** The check of [load_product_data] on the keys [policy] and [supplier]:
    more than one row, or none, raises [ValueError]. *)
Definition unique_entry {A} (filtered : list A) : result A :=
  match filtered with
  | _ :: _ :: _ => Raise ValueError
  | [] => Raise ValueError
  | [row] => Ok row
  end.

Definition _get_product_supplier (loader : DataLoader) (product_id : string)
  : result string :=
  match List.filter (fun r => String.eqb (ledger_product_id r) product_id)
                    (inventory_ledger loader) with
  | [] => Raise ValueError
  | r :: _ => Ok (ledger_supplier_id r)
  end.

Definition load_product_data (loader : DataLoader) (product_id : string)
  : result ProductData :=
  pol ← unique_entry
          (List.filter (fun r => String.eqb (policy_product_id r) product_id)
                       (inventory_policy loader));
  let led := List.filter (fun r => String.eqb (ledger_product_id r) product_id)
                         (inventory_ledger loader) in
  let fc := List.filter (fun r => String.eqb (forecast_product_id r) product_id)
                        (clean_forecast loader) in
  sid ← _get_product_supplier loader product_id;
  sup ← unique_entry
          (List.filter (fun r => String.eqb (supplier_id r) sid)
                       (suppliers1 loader));
  Ok (mkProductData pol led fc sup).

Definition load_all_suppliers (loader : DataLoader) : list SupplierData :=
  suppliers1 loader.

(** ** [utils.validate_date_range] (the second definition of the module,
    which is the one in force) *)

Definition list_min (l : list Z) (d : Z) : Z := fold_right Z.min d l.
Definition list_max (l : list Z) (d : Z) : Z := fold_right Z.max d l.

Definition validate_date_range (forecast_df : list ForecastRow)
    (start_date end_date : date) : result unit :=
  match map forecast_date forecast_df with
  | [] => Raise ValueError
  | d :: ds =>
      let min_forecast_date := list_min ds d in
      let max_forecast_date := list_max ds d in
      if (start_date <? min_forecast_date) || (max_forecast_date <? end_date)
      then Raise ValueError
      else Ok tt
  end.

(** ** [order_manager.py] *)

Record Order := mkOrder {
  arrival_date : date;
  quantity : Z;
  status : string
}.

Record OrderManager := mkOrderManager {
  om_lead_time : Z;
  om_moq : Z;
  om_reliability : Q;
  pending_orders : list Order;
  override_supplier_id : option string
}.

Definition OrderManager_init (supplier_data : SupplierData)
    (override : option string) : OrderManager :=
  mkOrderManager (lead_time supplier_data) (MOQ supplier_data)
                 (reliability supplier_data) [] override.

Definition _calculate_arrival (self : OrderManager) (order_date : date) : date :=
  BusinessDay_apply (om_lead_time self) order_date.

(** [place_order]: one draw of the ambient generator; the draw is consumed
    whether or not the order goes through. *)
Definition place_order (self : OrderManager) (g : Rng)
    (order_date : date) (needed_qty : Z) : result OrderManager * Rng :=
  let '(u, g') := random_random g in
  if Qgtb u (om_reliability self) then (Raise OrderFailedError, g')
  else
    let order_qty := Z.max needed_qty (om_moq self) in
    let arrival := _calculate_arrival self order_date in
    (Ok (mkOrderManager (om_lead_time self) (om_moq self) (om_reliability self)
           (pending_orders self ++ [mkOrder arrival order_qty "pending"])
           (override_supplier_id self)),
     g').

Definition get_pending_orders (self : OrderManager) : list Order :=
  pending_orders self.

(** ** [core.CostCalculator] *)

Record CostCalculator := mkCost {
  holding_rate : Q;
  order_cost : Q;
  stockout_penalty : Q;
  total_holding : Q;
  total_ordering : Q;
  total_stockout : Q
}.

(** The constructor stores the literal [0.20] and does not read its first
    argument. *)
Definition CostCalculator_init (holding_rate_arg order_cost_arg
    stockout_penalty_arg : Q) : CostCalculator :=
  mkCost (1 # 5) order_cost_arg stockout_penalty_arg 0 0 0.

Definition update_costs (self : CostCalculator) (closing_stock stockout_qty : Z)
  : CostCalculator :=
  mkCost (holding_rate self) (order_cost self) (stockout_penalty self)
         (total_holding self + inject_Z closing_stock * holding_rate self)%Q
         (total_ordering self)
         (total_stockout self + inject_Z stockout_qty * stockout_penalty self)%Q.

Definition add_order_cost (self : CostCalculator) : CostCalculator :=
  mkCost (holding_rate self) (order_cost self) (stockout_penalty self)
         (total_holding self)
         (total_ordering self + order_cost self)%Q
         (total_stockout self).

Definition set_holding_rate (self : CostCalculator) (rate : Q) : CostCalculator :=
  mkCost rate (order_cost self) (stockout_penalty self)
         (total_holding self) (total_ordering self) (total_stockout self).

(** ** [core.InventorySimulator] *)

Record InventorySimulator := mkSim {
  product_id : string;
  loader : DataLoader;
  product_data : ProductData;
  order_mgr : OrderManager;
  rop : Z;
  sim_eoq : Z;
  cost_calc : CostCalculator;
  (** created by [_init_stock_state], which [run] calls before any read *)
  current_stock : Z
}.

Definition with_order_mgr (self : InventorySimulator) (om : OrderManager) :=
  mkSim (product_id self) (loader self) (product_data self) om
        (rop self) (sim_eoq self) (cost_calc self) (current_stock self).

Definition with_cost_calc (self : InventorySimulator) (c : CostCalculator) :=
  mkSim (product_id self) (loader self) (product_data self) (order_mgr self)
        (rop self) (sim_eoq self) c (current_stock self).

Definition with_current_stock (self : InventorySimulator) (s : Z) :=
  mkSim (product_id self) (loader self) (product_data self) (order_mgr self)
        (rop self) (sim_eoq self) (cost_calc self) s.

Definition InventorySimulator_init (files : DataLoader) (pid : string)
    (holding_rate_arg : option Q) (force_supplier_id : option string)
  : result InventorySimulator :=
  pd ← load_product_data files pid;
  let sup := supplier pd in
  let pol := policy pd in
  let estimated_order_cost := ((1 # 10) * inject_Z (MOQ sup) * cost sup)%Q in
  let om := OrderManager_init sup force_supplier_id in
  let annual_rate := match holding_rate_arg with
                     | Some r => r
                     | None => (1 # 4)%Q
                     end in
  let holding_cost_per_unit := (unit_cost pol * annual_rate)%Q in
  Ok (mkSim pid files pd om
        (reorder_point pol + safety_stock pol) (eoq pol)
        (CostCalculator_init (holding_cost_per_unit / 365)%Q
                             estimated_order_cost 5)
        0).

Definition _override_supplier (self : InventorySimulator) (sid : string)
  : result InventorySimulator :=
  match List.filter (fun r => String.eqb (supplier_id r) sid)
                    (load_all_suppliers (loader self)) with
  | [] => Raise ValueError
  | row :: _ => Ok (with_order_mgr self (OrderManager_init row None))
  end.

Definition _init_stock_state (self : InventorySimulator) (start_date : date)
  : result InventorySimulator :=
  match List.filter (fun r => ledger_date r =? start_date)
                    (ledger (product_data self)) with
  | [] => Raise ValueError
  | row :: _ => Ok (with_current_stock self (opening_stock row))
  end.

(** The loop over the pending orders: each order whose arrival date is the
    current date adds its quantity; the list itself is only read. *)
Definition _process_order_arrivals (self : InventorySimulator)
    (current_date : date) : InventorySimulator :=
  with_current_stock self
    (fold_left (fun stock order =>
                  if arrival_date order =? current_date
                  then stock + quantity order else stock)
               (get_pending_orders (order_mgr self))
               (current_stock self)).

(** [modifications and date in modifications]: [None] and the empty
    dictionary are both false. *)
Definition _get_daily_demand (self : InventorySimulator) (d : date)
    (modifications : option (gmap Z Z)) : result Z :=
  match modifications ≫= (fun m => m !! d) with
  | Some q => Ok q
  | None =>
      match List.filter (fun r => forecast_date r =? d)
                        (forecast (product_data self)) with
      | [] => Raise ValueError
      | row :: _ => Ok (predicted_units row)
      end
  end.

Definition _update_inventory (self : InventorySimulator) (demand : Z)
  : InventorySimulator * Z :=
  let stock := current_stock self - demand in
  let stockout := Z.max (- stock) 0 in
  (with_current_stock self (Z.max stock 0), stockout).

Definition is_empty {A} (l : list A) : bool :=
  match l with [] => true | _ => false end.

Definition _check_reorder_point (self : InventorySimulator) (g : Rng)
    (d : date) : InventorySimulator * Rng :=
  if (current_stock self <=? rop self)
     && is_empty (get_pending_orders (order_mgr self))
  then
    match place_order (order_mgr self) g d (sim_eoq self) with
    | (Ok om, g') =>
        (with_cost_calc (with_order_mgr self om)
                        (add_order_cost (cost_calc self)), g')
    | (Raise _, g') => (self, g')   (* [except OrderFailedError: pass] *)
    end
  else (self, g).

Record DailyRecord := mkRecord {
  rec_date : date;
  rec_demand : Z;
  rec_stockout : Z;
  rec_inventory : Z;
  rec_pending_orders : nat
}.

Definition _record_daily_result (self : InventorySimulator) (d : date)
    (demand stockout : Z) : DailyRecord :=
  mkRecord d demand stockout (current_stock self)
           (length (get_pending_orders (order_mgr self))).

Record Metrics := mkMetrics {
  total_holding_cost : Q;
  total_stockout_cost : Q;
  total_ordering_cost : Q;
  stockout_days : nat
}.

Record RunResult := mkRunResult {
  timeline : list DailyRecord;
  metrics : Metrics
}.

(** [df.set_index('date')] on the frame of an empty list of records has
    no such column: [KeyError]. *)
Definition _compile_results (self : InventorySimulator)
    (daily_records : list DailyRecord) : result RunResult :=
  match daily_records with
  | [] => Raise KeyError
  | _ =>
      Ok (mkRunResult daily_records
            (mkMetrics (round2 (total_holding (cost_calc self)))
                       (round2 (total_stockout (cost_calc self)))
                       (round2 (total_ordering (cost_calc self)))
                       (length (List.filter (fun r => 0 <? rec_stockout r)
                                            daily_records))))
  end.

(** One iteration of the loop of [run]. *)
Definition day_step (modifications : option (gmap Z Z))
    (self : InventorySimulator) (g : Rng) (day_date : date)
  : result (InventorySimulator * Rng * DailyRecord) :=
  let self := _process_order_arrivals self day_date in
  demand ← _get_daily_demand self day_date modifications;
  let '(self, stockout_qty) := _update_inventory self demand in
  let '(self, g) := _check_reorder_point self g day_date in
  let self := with_cost_calc self
                (update_costs (cost_calc self) (current_stock self) stockout_qty) in
  Ok (self, g, _record_daily_result self day_date demand stockout_qty).

Fixpoint run_loop (modifications : option (gmap Z Z))
    (self : InventorySimulator) (g : Rng) (days : list date)
    (results : list DailyRecord)
  : result (InventorySimulator * Rng * list DailyRecord) :=
  match days with
  | [] => Ok (self, g, results)
  | day :: days' =>
      '(self', g', r) ← day_step modifications self g day;
      run_loop modifications self' g' days' (results ++ [r])
  end.

Definition run (self : InventorySimulator) (g : Rng)
    (start_date end_date : date)
    (demand_modifications : option (gmap Z Z))
    (holding_rate_arg : option Q) (force_supplier_id : option string)
  : result (RunResult * InventorySimulator * Rng) :=
  let self :=
    match holding_rate_arg with
    | Some r =>
        with_cost_calc self
          (set_holding_rate (cost_calc self)
             (unit_cost (policy (product_data self)) * r / 365)%Q)
    | None => self
    end in
  self ← match force_supplier_id with
         | Some sid => _override_supplier self sid
         | None => Ok self
         end;
  _ ← validate_date_range (forecast (product_data self)) start_date end_date;
  let days := date_range start_date end_date in
  self ← _init_stock_state self start_date;
  '(self, g, results) ← run_loop demand_modifications self g days [];
  out ← _compile_results self results;
  Ok (out, self, g).

(** [simulator.run_simulation], with its dates already converted by
    [convert_date_format]: a fresh simulator for every call, the holding
    rate always passed on to [run]. *)
Definition run_simulation (files : DataLoader) (g : Rng) (pid : string)
    (start_dt end_dt : date) (demand_modifications : option (gmap Z Z))
    (holding_rate_arg : Q) (force_supplier_id : option string)
  : result (RunResult * list Order * Rng) :=
  let mods := match demand_modifications with
              | Some m => m
              | None => ∅
              end in
  simulator ← InventorySimulator_init files pid None None;
  '(results, simulator, g) ←
     run simulator g start_dt end_dt (Some mods)
         (Some holding_rate_arg) force_supplier_id;
  Ok (results, get_pending_orders (order_mgr simulator), g).

End WhatIf.

(** * The dashboard simulator of [sim.py] *)

Module Dashboard.

Record Policy := mkPolicy {
  product_id : string;
  policy_supplier_id : string;
  eoq : Z;
  reorder_point : Z;
  safety_stock : Z;
  unit_cost : Q
}.

(** [reliability] is a percentage here (0 to 100). *)
Record Supplier := mkSupplier {
  supplier_id : string;
  products : string;
  lead_time : Z;
  MOQ : Z;
  reliability : Q
}.

Record ForecastRow := mkForecastRow {
  forecast_product_id : string;
  forecast_date : date;
  predicted_units : Z
}.

Record DataLoader := mkLoader {
  policies : list Policy;
  suppliers : list Supplier;
  forecast : list ForecastRow
}.

(** The dictionary [scenario_params]: an absent key is [None]. *)
Record ScenarioParams := mkParams {
  param_supplier_id : option string;
  param_eoq : option Z;
  param_reorder_point : option Z;
  param_safety_stock : option Z;
  param_buffer_days : option Z
}.

(** Truth value of the dictionary: false when it has no key. *)
Definition params_nonempty (p : ScenarioParams) : bool :=
  match p with
  | mkParams None None None None None => false
  | _ => true
  end.

Record LedgerEntry := mkEntry {
  entry_date : date;
  entry_opening_stock : Z;
  entry_demand : Z;
  entry_sold : Z;
  entry_unmet_demand : Z;
  entry_closing_stock : Z;
  entry_restock_qty : Z;
  entry_holding_cost : Q;
  entry_ordering_cost : Z;
  entry_supplier : string
}.

Definition HOLDING_RATE_DAILY : Q := ((1 # 5) / 365)%Q.
Definition ORDER_COST : Z := 500.

Definition _adjusted_lead_time (supplier : Supplier) : Z :=
  let reliability_factor := ((100 - reliability supplier) / 100)%Q in
  int_of_float (inject_Z (lead_time supplier) * (1 + reliability_factor))%Q.

(** [.iloc[0]] of a selection: [IndexError] when it is empty. *)
Definition iloc0 {A} (rows : list A) : result A :=
  match rows with
  | [] => Raise IndexError
  | r :: _ => Ok r
  end.

(** The state of the day loop of [simulate_product]. *)
Record LoopState := mkLoop {
  current_stock : Z;
  pending_orders : list (date * Z);
  ledger : list LedgerEntry
}.

Definition arrived_on (pending : list (date * Z)) (d : date) : Z :=
  fold_right Z.add 0
    (map snd (List.filter (fun o => fst o =? d) pending)).

Definition still_pending (pending : list (date * Z)) (d : date)
  : list (date * Z) :=
  List.filter (fun o => d <? fst o) pending.

(** [forecast.loc[forecast["date"] == date, ...].values[0]], with
    [except IndexError: demand = 0]. *)
Definition daily_demand (fc : list ForecastRow) (d : date) : Z :=
  match List.filter (fun r => forecast_date r =? d) fc with
  | [] => 0
  | r :: _ => predicted_units r
  end.

Definition is_empty {A} (l : list A) : bool :=
  match l with [] => true | _ => false end.

(** The block "Calculate transactions": [(sold, unmet, closing_stock)]. *)
Definition transactions (current_stock demand : Z) : Z * Z * Z :=
  let sold := Z.min current_stock demand in
  let unmet := Z.max 0 (demand - sold) in
  let closing_stock := current_stock - sold in
  (sold, unmet, closing_stock).

Definition day_step (policy : Policy) (supplier : Supplier)
    (fc : list ForecastRow) (st : LoopState) (d : date) : LoopState :=
  (* Process order arrivals *)
  let arrived := arrived_on (pending_orders st) d in
  let current_stock := current_stock st + arrived in
  let pending := still_pending (pending_orders st) d in
  (* Get daily demand *)
  let demand := daily_demand fc d in
  let '(sold, unmet, closing_stock) := transactions current_stock demand in
  (* Order placement logic *)
  let place := (closing_stock <? reorder_point policy) && is_empty pending in
  let order_qty := Z.max (eoq policy) (MOQ supplier) in
  let arrival := d + _adjusted_lead_time supplier in
  let pending := if place then pending ++ [(arrival, order_qty)] else pending in
  let restock_qty := if place then order_qty else 0 in
  (* Calculate costs *)
  let holding_cost :=
    (inject_Z closing_stock * unit_cost policy * HOLDING_RATE_DAILY)%Q in
  let ordering_cost := if 0 <? restock_qty then ORDER_COST else 0 in
  mkLoop closing_stock pending
    (ledger st ++
       [mkEntry d current_stock demand sold unmet closing_stock restock_qty
                holding_cost ordering_cost (supplier_id supplier)]).

Definition run_loop (policy : Policy) (supplier : Supplier)
    (fc : list ForecastRow) (st : LoopState) (days : list date) : LoopState :=
  fold_left (day_step policy supplier fc) days st.


(** 2025-04-01 *)
Definition start_date : date := 739342.

Section Simulate.

(** [_calculate_initial_stock] goes through the sample standard deviation
    and a square root of floats; its value, or the exception it raises, is
    taken as given. *)
Variable _calculate_initial_stock :
  Policy -> Supplier -> list ForecastRow -> Z -> result Z.

Definition apply_scenario (base_policy : Policy)
    (scenario_params : option ScenarioParams) : string * Policy * Z :=
  match scenario_params with
  | Some p =>
      if params_nonempty p then
        (default (policy_supplier_id base_policy) (param_supplier_id p),
         mkPolicy (product_id base_policy) (policy_supplier_id base_policy)
                  (default (eoq base_policy) (param_eoq p))
                  (default (reorder_point base_policy) (param_reorder_point p))
                  (default (safety_stock base_policy) (param_safety_stock p))
                  (unit_cost base_policy),
         default 7 (param_buffer_days p))
      else (policy_supplier_id base_policy, base_policy, 7)
  | None => (policy_supplier_id base_policy, base_policy, 7)
  end.

(** The body of the [try] block. *)
Definition simulate_body (loader : DataLoader) (pid : string)
    (scenario_params : option ScenarioParams) : result (list LedgerEntry) :=
  base_policy ← iloc0 (List.filter (fun r => String.eqb (product_id r) pid)
                                   (policies loader));
  let sups := List.filter (fun r => String.eqb (products r) pid)
                          (suppliers loader) in
  let fc := List.filter (fun r => String.eqb (forecast_product_id r) pid)
                        (forecast loader) in
  let '(sid, policy, buffer_days) := apply_scenario base_policy scenario_params in
  supplier ← iloc0 (List.filter (fun r => String.eqb (supplier_id r) sid) sups);
  let end_date := start_date + (30 + _adjusted_lead_time supplier) in
  stock ← _calculate_initial_stock policy supplier fc buffer_days;
  Ok (ledger (run_loop policy supplier fc (mkLoop stock [] [])
                       (date_range start_date end_date))).


End Simulate.

End Dashboard.

(** * Sample data *)

Module Sample.

(** Product P1 of the scenario example of the specification: reorder point
    50, no safety stock, EOQ 200, MOQ 100, lead time 5, opening stock 60,
    a demand of 20 on every day of April 2025 (Tuesday 2025-04-01 is day
    739342). *)
Definition april : list date := date_range 739342 739371.

Definition policy := WhatIf.mkPolicy "P1" 200 50 0 10.
Definition supplier (rel : Q) := WhatIf.mkSupplier "S1" 5 100 rel 2.
Definition ledger := [WhatIf.mkLedgerRow 739342 "P1" 60 "S1"].
Definition forecast := map (fun d => WhatIf.mkForecastRow d "P1" 20) april.

Definition files (rel : Q) : WhatIf.DataLoader :=
  WhatIf.mkLoader [policy] ledger forecast [supplier rel].

(** The simulator that [InventorySimulator("P1")] builds on these files. *)
Definition simulator (rel : Q) : WhatIf.InventorySimulator :=
  WhatIf.mkSim "P1" (files rel)
    (WhatIf.mkProductData policy ledger forecast (supplier rel))
    (WhatIf.mkOrderManager 5 100 rel [] None)
    50 200
    (WhatIf.mkCost (1 # 5) ((1 # 10) * inject_Z 100 * 2)%Q 5 0 0 0)
    0.

(** The same data with the forecast row of 2025-04-03 missing. *)
Definition forecast_gap :=
  List.filter (fun r => negb (WhatIf.forecast_date r =? 739344)) forecast.

Definition simulator_gap : WhatIf.InventorySimulator :=
  WhatIf.mkSim "P1"
    (WhatIf.mkLoader [policy] ledger forecast_gap [supplier 1])
    (WhatIf.mkProductData policy ledger forecast_gap (supplier 1))
    (WhatIf.mkOrderManager 5 100 1 [] None)
    50 200
    (WhatIf.mkCost (1 # 5) ((1 # 10) * inject_Z 100 * 2)%Q 5 0 0 0)
    0.

(** Two states of the ambient generator. *)
Definition low_draws : Rng := mkRng (fun _ => 3 # 10) 0.
Definition high_draws : Rng := mkRng (fun _ => 7 # 10) 0.

Definition run_april (rel : Q) (g : Rng) (last : date)
  : result (WhatIf.RunResult * WhatIf.InventorySimulator * Rng) :=
  WhatIf.run (simulator rel) g 739342 last None None None.

(** The same product for the dashboard, whose reliability is a
    percentage. *)
Definition dashboard_policy := Dashboard.mkPolicy "P1" "S1" 200 50 0 10.
Definition dashboard_supplier := Dashboard.mkSupplier "S1" "P1" 5 100 90.
Definition dashboard_forecast :=
  map (fun d => Dashboard.mkForecastRow "P1" d 20) april.

Definition dashboard_loader : Dashboard.DataLoader :=
  Dashboard.mkLoader [dashboard_policy] [dashboard_supplier] dashboard_forecast.

End Sample.

(** * Vocabulary of the statements *)

Module WhatIfSpec.

Import WhatIf.

(** The three ways out of [_check_reorder_point]: the guard is closed, the
    supplier refuses, or one order is appended to an empty list. *)
Inductive reorder_outcome (self : InventorySimulator) (g : Rng) (d : date)
  : InventorySimulator -> Rng -> Prop :=
| guard_closed :
    (current_stock self <=? rop self)
      && is_empty (pending_orders (order_mgr self)) = false ->
    reorder_outcome self g d self g
| order_refused :
    current_stock self <= rop self ->
    pending_orders (order_mgr self) = [] ->
    Qgtb (draws g (cursor g)) (om_reliability (order_mgr self)) = true ->
    reorder_outcome self g d self (mkRng (draws g) (S (cursor g)))
| order_stored :
    current_stock self <= rop self ->
    pending_orders (order_mgr self) = [] ->
    Qgtb (draws g (cursor g)) (om_reliability (order_mgr self)) = false ->
    reorder_outcome self g d
      (with_cost_calc
         (with_order_mgr self
            (mkOrderManager (om_lead_time (order_mgr self))
               (om_moq (order_mgr self)) (om_reliability (order_mgr self))
               [mkOrder (BusinessDay_apply (om_lead_time (order_mgr self)) d)
                        (Z.max (sim_eoq self) (om_moq (order_mgr self)))
                        "pending"]
               (override_supplier_id (order_mgr self))))
         (add_order_cost (cost_calc self)))
      (mkRng (draws g) (S (cursor g))).

(** The state in which [run] enters its loop. *)
Record enters_loop (self : InventorySimulator) (hr : option Q)
    (fs : option string) (start_date end_date : date)
    (self0 : InventorySimulator) : Prop := {
  enters_product_data : product_data self0 = product_data self;
  enters_rop : rop self0 = rop self;
  enters_eoq : sim_eoq self0 = sim_eoq self;
  enters_costs :
    cost_calc self0 =
    match hr with
    | Some r => set_holding_rate (cost_calc self)
                  (unit_cost (policy (product_data self)) * r / 365)%Q
    | None => cost_calc self
    end;
  enters_orders :
    match fs with
    | Some _ => pending_orders (order_mgr self0) = []
    | None => order_mgr self0 = order_mgr self
    end;
  enters_validated :
    validate_date_range (forecast (product_data self)) start_date end_date
    = Ok tt;
  enters_stock :
    exists row rows,
      List.filter (fun r => ledger_date r =? start_date)
                  (ledger (product_data self)) = row :: rows /\
      current_stock self0 = opening_stock row
}.

(** What a day does to the list of orders, the ordering total and the
    generator. *)
Inductive orders_after (self : InventorySimulator) (g : Rng) (d : date)
    (self' : InventorySimulator) (g' : Rng) : Prop :=
| orders_untouched :
    pending_orders (order_mgr self') = pending_orders (order_mgr self) ->
    total_ordering (cost_calc self') = total_ordering (cost_calc self) ->
    (pending_orders (order_mgr self) <> [] -> g' = g) ->
    orders_after self g d self' g'
| orders_first :
    pending_orders (order_mgr self) = [] ->
    pending_orders (order_mgr self') =
      [mkOrder (BusinessDay_apply (om_lead_time (order_mgr self)) d)
               (Z.max (sim_eoq self) (om_moq (order_mgr self))) "pending"] ->
    total_ordering (cost_calc self') =
      (total_ordering (cost_calc self) + order_cost (cost_calc self))%Q ->
    orders_after self g d self' g'.



(** Two generators that yield the same next [n] draws. *)
Definition agree (n : nat) (g1 g2 : Rng) : Prop :=
  forall i, (i < n)%nat ->
            draws g1 (cursor g1 + i)%nat = draws g2 (cursor g2 + i)%nat.

(** What the caller of [run] sees: the result and the simulator, or the
    exception. *)
Definition observable {A B} (r : result (A * B * Rng)) : result (A * B) :=
  match r with
  | Ok (a, b, _) => Ok (a, b)
  | Raise e => Raise e
  end.

(** Two outcomes of a day, or of the loop, that differ at most in the
    generator, whose next [n] draws still agree. *)
Definition same_outcome {A B} (n : nat)
    (r1 r2 : result (A * Rng * B)) : Prop :=
  match r1, r2 with
  | Ok (a1, g1, b1), Ok (a2, g2, b2) => a1 = a2 /\ b1 = b2 /\ agree n g1 g2
  | Raise e1, Raise e2 => e1 = e2
  | _, _ => False
  end.

End WhatIfSpec.

Module DashboardSpec.

Import Dashboard.

(** The order placed by the dashboard on day [d]. *)
Definition dashboard_order (policy : Policy) (supplier : Supplier) (d : date)
  : date * Z :=
  (d + _adjusted_lead_time supplier, Z.max (eoq policy) (MOQ supplier)).

(** Whether the dashboard places an order on day [d] from state [st]. *)
Definition dashboard_places (policy : Policy) (fc : list ForecastRow)
    (st : LoopState) (d : date) : bool :=
  let opening := current_stock st + arrived_on (pending_orders st) d in
  (opening - Z.min opening (daily_demand fc d) <? reorder_point policy)
  && is_empty (still_pending (pending_orders st) d).

(** What a row of the dashboard ledger says about the day's transactions. *)
Definition entry_consistent (e : LedgerEntry) : Prop :=
  entry_sold e = Z.min (entry_opening_stock e) (entry_demand e) /\
  entry_unmet_demand e = Z.max (entry_demand e - entry_opening_stock e) 0 /\
  entry_closing_stock e = Z.max (entry_opening_stock e - entry_demand e) 0 /\
  0 <= entry_closing_stock e.

Definition dashboard_stock_ok (st : LoopState) : Prop :=
  0 <= current_stock st /\
  Forall (fun o => 0 <= snd o) (pending_orders st) /\
  Forall (fun e => 0 <= entry_opening_stock e /\ entry_consistent e) (ledger st).

End DashboardSpec.

(** * Further vocabulary: flows and totals of a run *)

Module WhatIfLaws.

Import WhatIf.

(** The quantity that the orders of a list bring on day [d]. *)
Definition arrivals (orders : list Order) (d : date) : Z :=
  fold_right Z.add 0
    (map quantity (List.filter (fun o => arrival_date o =? d) orders)).



(** A date for which [_get_daily_demand] has an answer: an override or a
    forecast row. *)
Definition has_demand (self : InventorySimulator)
    (mods : option (gmap Z Z)) (d : date) : Prop :=
  (exists q, mods ≫= (fun m => m !! d) = Some q) \/
  (exists r, In r (forecast (product_data self)) /\ forecast_date r = d).

(** What [run] needs from the data to return a result. *)
Definition run_data_ok (self : InventorySimulator)
    (start_date end_date : date) (mods : option (gmap Z Z))
    (fs : option string) : Prop :=
  match fs with
  | Some sid => exists row, In row (suppliers1 (loader self)) /\
                            supplier_id row = sid
  | None => True
  end /\
  (exists r, In r (forecast (product_data self)) /\
             forecast_date r <= start_date) /\
  (exists r, In r (forecast (product_data self)) /\
             end_date <= forecast_date r) /\
  (exists r, In r (ledger (product_data self)) /\ ledger_date r = start_date) /\
  start_date <= end_date /\
  (forall d, start_date <= d <= end_date -> has_demand self mods d).


(** An order as a run stores it: placed on the day of a record whose
    inventory had fallen to [rop] or below, for max(eoq, MOQ), due
    [lead_time] business days later, and marked "pending". *)
Definition order_of_run (self : InventorySimulator)
    (recs : list DailyRecord) (o : Order) : Prop :=
  quantity o = Z.max (sim_eoq self) (om_moq (order_mgr self)) /\
  status o = "pending"%string /\
  exists r, In r recs /\
            rec_inventory r <= rop self /\
            arrival_date o
            = BusinessDay_apply (om_lead_time (order_mgr self)) (rec_date r).

End WhatIfLaws.

(** * [simulator.compare_scenarios] *)

Module Scenarios.

Import WhatIf.

(** A scenario dictionary: [name], [demand_mods] (its keys already
    converted to dates, as for [run_simulation]) and, under [params], the
    keyword arguments [holding_rate] and [force_supplier_id] of
    [run_simulation]; [enable_risk] is passed on and never read.  An
    absent key is [None]. *)
Record Scenario := mkScenario {
  scenario_name : option string;
  scenario_demand_mods : option (gmap Z Z);
  scenario_holding_rate : option Q;
  scenario_force_supplier_id : option string
}.

(** [scenario.get("name", "Unnamed Scenario")] *)
Definition name_of (sc : Scenario) : string :=
  default "Unnamed Scenario"%string (scenario_name sc).

(** The call [run_simulation(..., demand_modifications=demand_mods,
    **params)]: an absent [holding_rate] is the default 0.20 of
    [run_simulation]. *)
Definition run_scenario (files : DataLoader) (g : Rng) (pid : string)
    (start_date end_date : date) (sc : Scenario)
  : result (RunResult * list Order * Rng) :=
  run_simulation files g pid start_date end_date
    (Some (default ∅ (scenario_demand_mods sc)))
    (default (1 # 5)%Q (scenario_holding_rate sc))
    (scenario_force_supplier_id sc).

(** The loop [for scenario in scenarios: ... results[name] = ...]; the
    generator goes from one scenario to the next. *)
Fixpoint compare_loop (files : DataLoader) (pid : string)
    (start_date end_date : date) (scenarios : list Scenario) (g : Rng)
    (results : gmap string Metrics) : result (gmap string Metrics * Rng) :=
  match scenarios with
  | [] => Ok (results, g)
  | sc :: rest =>
      '(output, _, g') ← run_scenario files g pid start_date end_date sc;
      compare_loop files pid start_date end_date rest g'
                   (<[name_of sc := metrics output]> results)
  end.

Definition compare_scenarios (files : DataLoader) (g : Rng) (pid : string)
    (scenarios : list Scenario) (start_date end_date : date)
  : result (gmap string Metrics * Rng) :=
  compare_loop files pid start_date end_date scenarios g ∅.

End Scenarios.

(** * The dashboard's data loader ([src/data_loader.py]) *)

Module DashboardData.

Import Dashboard.





(** A row of [inventory_ledger.csv]. *)
Record LedgerRow := mkLedgerRow {
  ledger_date : date;
  ledger_product_id : string;
  ledger_supplier_id : string;
  lead_time_used : Z;
  opening_stock : Z;
  demand : Z;
  units_sold : Z;
  unmet_demand : Z;
  restocked_qty : Z;
  closing_stock : Z;
  next_arrival : date
}.

(** [pd.merge(left, right, on=key, how="left")]: the rows of [left] in
    their order; each one is paired with every row of [right] of the same
    key, in the order of [right], or stands once, without a partner, when
    there is none. *)
Definition left_merge {L R} (same_key : L -> R -> bool)
    (left : list L) (right : list R) : list (L * option R) :=
  flat_map (fun l =>
              match List.filter (same_key l) right with
              | [] => [(l, None)]
              | matches => map (fun r => (l, Some r)) matches
              end) left.

(** The columns that [get_merged_ledger] takes from the policies and from
    the suppliers. *)
Record PolicyColumns := mkPolicyColumns {
  col_reorder_point : Z;
  col_safety_stock : Z
}.

Record SupplierColumns := mkSupplierColumns {
  col_MOQ : Z;
  col_lead_time : Z;
  col_reliability : Q;
  col_products : string
}.

Record MergedRow := mkMerged {
  merged_ledger : LedgerRow;
  merged_policy : option PolicyColumns;
  merged_supplier : option SupplierColumns
}.

Definition policy_columns (p : Policy) : PolicyColumns :=
  mkPolicyColumns (reorder_point p) (safety_stock p).

Definition supplier_columns (s : Supplier) : SupplierColumns :=
  mkSupplierColumns (MOQ s) (lead_time s) (reliability s) (products s).

(** [get_merged_ledger]: nothing when one of the three frames is empty;
    else the ledger merged with the policies on [product_id], then with
    the suppliers on [supplier_id]. *)
Definition get_merged_ledger (ledger : list LedgerRow) (loader : DataLoader)
  : list MergedRow :=
  match ledger, policies loader, suppliers loader with
  | [], _, _ | _, [], _ | _, _, [] => []
  | _, _, _ =>
      let merged :=
        left_merge (fun l p => String.eqb (ledger_product_id l) (product_id p))
                   ledger (policies loader) in
      let merged :=
        left_merge (fun m s => String.eqb (ledger_supplier_id (fst m))
                                          (supplier_id s))
                   merged (suppliers loader) in
      map (fun m => mkMerged (fst (fst m))
                             (option_map policy_columns (snd (fst m)))
                             (option_map supplier_columns (snd m)))
          merged
  end.

End DashboardData.

(** * Further vocabulary: the rows of the dashboard ledger *)

Module DashboardLaws.

Import Dashboard.

(** What every row written by [simulate_product] satisfies. *)
Definition row_ok (policy : Policy) (supplier : Supplier) (e : LedgerEntry)
  : Prop :=
  entry_sold e + entry_unmet_demand e = entry_demand e /\
  entry_sold e + entry_closing_stock e = entry_opening_stock e /\
  0 <= entry_closing_stock e /\
  0 <= entry_unmet_demand e /\
  entry_supplier e = supplier_id supplier /\
  entry_holding_cost e
  = (inject_Z (entry_closing_stock e) * unit_cost policy * HOLDING_RATE_DAILY)%Q /\
  (entry_restock_qty e = 0 \/
   entry_restock_qty e = Z.max (eoq policy) (MOQ supplier) /\
   entry_closing_stock e < reorder_point policy) /\
  entry_ordering_cost e = (if 0 <? entry_restock_qty e then ORDER_COST else 0).

(** [_calculate_initial_stock] reads the reorder point of the policy and
    nothing else of it. *)
Definition reads_reorder_point_only
    (calc : Policy -> Supplier -> list ForecastRow -> Z -> result Z) : Prop :=
  forall p1 p2 supplier fc buffer_days,
    reorder_point p1 = reorder_point p2 ->
    calc p1 supplier fc buffer_days = calc p2 supplier fc buffer_days.


(** The rows that [simulate_product] selects with [.iloc[0]]. *)
Definition policy_row (loader : DataLoader) (pid : string) : option Policy :=
  head (List.filter (fun r => String.eqb (product_id r) pid) (policies loader)).

Definition supplier_row (loader : DataLoader) (pid sid : string)
  : option Supplier :=
  head (List.filter (fun r => String.eqb (supplier_id r) sid)
          (List.filter (fun r => String.eqb (products r) pid)
                       (suppliers loader))).

Definition product_forecast (loader : DataLoader) (pid : string)
  : list ForecastRow :=
  List.filter (fun r => String.eqb (forecast_product_id r) pid)
              (forecast loader).

Definition scenario_supplier_id (base : Policy) (params : option ScenarioParams)
  : string := fst (fst (apply_scenario base params)).

Definition scenario_policy (base : Policy) (params : option ScenarioParams)
  : Policy := snd (fst (apply_scenario base params)).

Definition scenario_buffer_days (base : Policy)
    (params : option ScenarioParams) : Z := snd (apply_scenario base params).

(** Rows that follow one another: a day opens with the stock the day before
    closed with, or with that stock and one delivery of [q] units. *)
Fixpoint chained (q stock : Z) (rows : list LedgerEntry) : Prop :=
  match rows with
  | [] => True
  | e :: rows =>
      (entry_opening_stock e = stock \/ entry_opening_stock e = stock + q) /\
      chained q (entry_closing_stock e) rows
  end.

(** At most one order is pending, and it is for [q] units. *)
Definition one_order_of (q : Z) (pending : list (date * Z)) : Prop :=
  pending = [] \/ exists arrival, pending = [(arrival, q)].



End DashboardLaws.

(** * Further sample data *)

Module Sample2.

(** The files of [Sample] with a second supplier, S2: lead time 3, MOQ
    400, reliability 1, unit cost 1. *)
Definition supplier_S2 := WhatIf.mkSupplier "S2" 3 400 1 1.

Definition files : WhatIf.DataLoader :=
  WhatIf.mkLoader [Sample.policy] Sample.ledger Sample.forecast
                  [Sample.supplier 1; supplier_S2].

(** The simulator that [InventorySimulator("P1")] builds on these files. *)
Definition simulator : WhatIf.InventorySimulator :=
  WhatIf.mkSim "P1" files
    (WhatIf.mkProductData Sample.policy Sample.ledger Sample.forecast
                          (Sample.supplier 1))
    (WhatIf.mkOrderManager 5 100 1 [] None)
    50 200
    (WhatIf.mkCost (1 # 5) ((1 # 10) * inject_Z 100 * 2)%Q 5 0 0 0)
    0.

End Sample2.

(** * A sample ledger for the dashboard *)

Module SampleLedger.

Import DashboardData.

(** Two days of [inventory_ledger.csv] for P1, and one row of a product
    that the policy file does not know. *)
Definition rows : list LedgerRow :=
  [ mkLedgerRow 739342 "P1" "S1" 5 60 20 20 0 0 40 739347;
    mkLedgerRow 739343 "P1" "S1" 5 40 20 20 0 0 20 739347;
    mkLedgerRow 739343 "P7" "S9" 3 10 0 0 0 0 10 739346 ].

End SampleLedger.

(** * Sample scenarios *)

Module SampleScenarios.

Import Scenarios.

Definition baseline := mkScenario (Some "Baseline"%string) None None None.
Definition costly := mkScenario (Some "Costly"%string) None (Some (1 # 2)) None.
Definition unnamed := mkScenario None (Some {[739344 := 100]}) None None.
Definition unknown_supplier :=
  mkScenario (Some "Other"%string) None None (Some "S9"%string).

End SampleScenarios.

(** * Properties *)

Import ListNotations.

(** ** Shape of one day of the [what_if_simulator] loop *)

Section WhatIfStep.

Import WhatIf WhatIfSpec.

Lemma process_order_arrivals_order_mgr self d :
  order_mgr (_process_order_arrivals self d) = order_mgr self.
Proof. reflexivity. Qed.

Lemma process_order_arrivals_cost_calc self d :
  cost_calc (_process_order_arrivals self d) = cost_calc self.
Proof. reflexivity. Qed.

Lemma update_inventory_stock self demand :
  current_stock (fst (_update_inventory self demand))
  = Z.max (current_stock self - demand) 0.
Proof. reflexivity. Qed.

Lemma update_inventory_stockout self demand :
  snd (_update_inventory self demand) = Z.max (demand - current_stock self) 0.
Proof. unfold _update_inventory; simpl. f_equal. lia. Qed.

Lemma is_empty_true {A} (l : list A) : is_empty l = true <-> l = [].
Proof. destruct l; simpl; split; congruence. Qed.

Lemma check_reorder_point_outcome self g d :
  reorder_outcome self g d (fst (_check_reorder_point self g d))
                           (snd (_check_reorder_point self g d)).
Proof.
  unfold _check_reorder_point.
  destruct ((current_stock self <=? rop self)
            && is_empty (get_pending_orders (order_mgr self))) eqn:Hguard.
  - apply andb_true_iff in Hguard as [Hs He].
    apply Z.leb_le in Hs. apply is_empty_true in He.
    unfold get_pending_orders in He.
    unfold place_order, random_random, _calculate_arrival.
    destruct (Qgtb (draws g (cursor g)) (om_reliability (order_mgr self)))
      eqn:Hdraw; simpl.
    + now apply order_refused.
    + rewrite He. simpl. now apply order_stored.
  - simpl. now apply guard_closed.
Qed.

(** [day_step] written out: the demand lookup is the only step that can
    raise. *)
Lemma day_step_Ok mods self g d self' g' r :
  day_step mods self g d = Ok (self', g', r) ->
  exists demand,
    _get_daily_demand (_process_order_arrivals self d) d mods = Ok demand /\
    let s1 := fst (_update_inventory (_process_order_arrivals self d) demand) in
    let stockout := snd (_update_inventory (_process_order_arrivals self d) demand) in
    let s2 := fst (_check_reorder_point s1 g d) in
    g' = snd (_check_reorder_point s1 g d) /\
    self' = with_cost_calc s2
              (update_costs (cost_calc s2) (current_stock s2) stockout) /\
    r = _record_daily_result self' d demand stockout.
Proof.
  unfold day_step.
  destruct (_get_daily_demand (_process_order_arrivals self d) d mods)
    as [demand|e] eqn:Hd; unfold mbind, result_bind; [|discriminate].
  destruct (_update_inventory (_process_order_arrivals self d) demand)
    as [s1 stockout] eqn:Hu.
  destruct (_check_reorder_point s1 g d) as [s2 g2] eqn:Hc.
  intros H. injection H as <- <- <-.
  exists demand. split; [reflexivity|]. cbv zeta. rewrite Hu. cbn [fst snd].
  rewrite Hc. cbn [fst snd]. auto.
Qed.

End WhatIfStep.

(** ** The loop and the wrapper [run] *)

Section WhatIfRun.

Import WhatIf.

Variable mods : option (gmap Z Z).

(** An invariant relating the simulator to the records written so far,
    kept by every day, holds along the whole loop. *)
Lemma run_loop_invariant (I : InventorySimulator -> list DailyRecord -> Prop) :
  (forall self g d acc self' g' r,
      I self acc -> day_step mods self g d = Ok (self', g', r) ->
      I self' (acc ++ [r])) ->
  forall days self g acc self' g' recs,
    I self acc ->
    run_loop mods self g days acc = Ok (self', g', recs) ->
    I self' recs.
Proof.
  intros Hstep days.
  induction days as [|d days IH]; intros self g acc self' g' recs HI Hrun.
  - simpl in Hrun. injection Hrun as <- <- <-. exact HI.
  - simpl in Hrun.
    destruct (day_step mods self g d) as [[[s1 g1] r1]|e] eqn:Hd;
      unfold mbind, result_bind in Hrun; [|discriminate].
    apply (IH s1 g1 (acc ++ [r1]) self' g' recs); [|exact Hrun].
    eapply Hstep; eauto.
Qed.

(** The records of a loop: the ones it was given, then one per day. *)
Lemma run_loop_records days :
  forall self g acc self' g' recs,
    run_loop mods self g days acc = Ok (self', g', recs) ->
    exists new, recs = acc ++ new /\ map rec_date new = days.
Proof.
  induction days as [|d days IH]; intros self g acc self' g' recs Hrun.
  - simpl in Hrun. injection Hrun as <- <- <-. exists []. now rewrite app_nil_r.
  - simpl in Hrun.
    destruct (day_step mods self g d) as [[[s1 g1] r1]|e] eqn:Hd;
      unfold mbind, result_bind in Hrun; [|discriminate].
    destruct (IH _ _ _ _ _ _ Hrun) as (new & -> & Hdates).
    exists (r1 :: new). rewrite <- app_assoc. split; [reflexivity|].
    simpl. rewrite Hdates. f_equal.
    apply day_step_Ok in Hd as (demand & _ & _ & _ & ->). reflexivity.
Qed.

End WhatIfRun.

Section WhatIfRunInversion.

Import WhatIf WhatIfSpec.

Lemma run_Ok self g start_date end_date mods hr fs out self' g' :
  run self g start_date end_date mods hr fs = Ok (out, self', g') ->
  exists self0,
    enters_loop self hr fs start_date end_date self0 /\
    run_loop mods self0 g (date_range start_date end_date) []
      = Ok (self', g', timeline out) /\
    _compile_results self' (timeline out) = Ok out.
Proof.
  unfold run.
  set (selfA := match hr with Some r => _ | None => self end).
  assert (HA : product_data selfA = product_data self /\
               rop selfA = rop self /\ sim_eoq selfA = sim_eoq self /\
               order_mgr selfA = order_mgr self /\
               loader selfA = loader self /\
               cost_calc selfA =
                 match hr with
                 | Some r => set_holding_rate (cost_calc self)
                     (unit_cost (policy (product_data self)) * r / 365)%Q
                 | None => cost_calc self
                 end).
  { subst selfA. destruct hr; simpl; auto 10. }
  destruct HA as (Hpd & Hrop & Heoq & Hom & Hld & Hcc).
  clearbody selfA.
  destruct (match fs with Some sid => _override_supplier selfA sid
                     | None => Ok selfA end) as [selfB|e] eqn:HB;
    unfold mbind, result_bind; [|discriminate].
  assert (HBprops : product_data selfB = product_data selfA /\
                    rop selfB = rop selfA /\ sim_eoq selfB = sim_eoq selfA /\
                    cost_calc selfB = cost_calc selfA /\
                    match fs with
                    | Some _ => pending_orders (order_mgr selfB) = []
                    | None => order_mgr selfB = order_mgr selfA
                    end).
  { destruct fs as [sid|].
    - unfold _override_supplier in HB.
      destruct (List.filter _ _) as [|row rows]; [discriminate|].
      injection HB as <-. simpl. auto.
    - injection HB as <-. auto. }
  destruct HBprops as (Hpd' & Hrop' & Heoq' & Hcc' & Hom').
  destruct (validate_date_range (forecast (product_data selfB))
              start_date end_date) as [[]|e] eqn:Hv; [|discriminate].
  destruct (_init_stock_state selfB start_date) as [selfC|e] eqn:HC;
    [|discriminate].
  unfold _init_stock_state in HC.
  destruct (List.filter _ (ledger (product_data selfB)))
    as [|row rows] eqn:Hrow; [discriminate|].
  injection HC as <-.
  destruct (run_loop mods _ g _ []) as [[[selfD gD] results]|e] eqn:HL;
    [|discriminate].
  destruct (_compile_results selfD results) as [out'|e] eqn:Hout;
    [|discriminate].
  intros H. injection H as <- <- <-.
  assert (Htl : timeline out' = results).
  { unfold _compile_results in Hout. destruct results; [discriminate|].
    injection Hout as <-. reflexivity. }
  rewrite Htl.
  eexists. split; [|split; [exact HL| exact Hout]].
  constructor; simpl.
  - congruence.
  - congruence.
  - congruence.
  - congruence.
  - destruct fs; [exact Hom'|congruence].
  - rewrite <- Hpd, <- Hpd'. exact Hv.
  - exists row, rows. rewrite <- Hpd, <- Hpd'. auto.
Qed.

End WhatIfRunInversion.

(** ** Orders along a day *)

Section WhatIfOrders.

Import WhatIf WhatIfSpec.

Lemma day_step_orders mods self g d self' g' r :
  day_step mods self g d = Ok (self', g', r) ->
  orders_after self g d self' g' /\
  rec_pending_orders r = length (pending_orders (order_mgr self')) /\
  order_cost (cost_calc self') = order_cost (cost_calc self) /\
  om_lead_time (order_mgr self') = om_lead_time (order_mgr self) /\
  om_moq (order_mgr self') = om_moq (order_mgr self) /\
  sim_eoq self' = sim_eoq self /\
  rop self' = rop self /\
  product_data self' = product_data self.
Proof.
  intros Hstep.
  apply day_step_Ok in Hstep as (demand & _ & Hg & Hself & Hr).
  cbv zeta in Hg, Hself.
  set (s1 := fst (_update_inventory (_process_order_arrivals self d) demand))
    in *.
  pose proof (check_reorder_point_outcome s1 g d) as Hout.
  rewrite <- Hg in Hout.
  assert (Hs1 : order_mgr s1 = order_mgr self /\ cost_calc s1 = cost_calc self
                /\ sim_eoq s1 = sim_eoq self /\ rop s1 = rop self
                /\ product_data s1 = product_data self)
    by (subst s1; simpl; auto).
  destruct Hs1 as (Hom & Hcc & Heoq & Hrop & Hpd).
  clearbody s1. subst r.
  remember (fst (_check_reorder_point s1 g d)) as s2 eqn:Hs2.
  inversion Hout as [Hclosed Hs Hgg | Hle Hempty Hdraw Hs Hgg
                    | Hle Hempty Hdraw Hs Hgg]; subst self'; simpl.
  - rewrite <- Hs. rewrite Hom, Hcc, Heoq, Hrop, Hpd.
    split; [|auto 10].
    apply orders_untouched; simpl; rewrite ?Hom, ?Hcc; auto.
  - rewrite <- Hs. rewrite Hom, Hcc, Heoq, Hrop, Hpd.
    split; [|auto 10].
    apply orders_untouched; simpl; rewrite ?Hom, ?Hcc; auto.
    rewrite <- Hs, Hom in Hempty. congruence.
  - rewrite <- Hs. simpl. rewrite Hom, Hcc, Heoq, Hrop, Hpd.
    split; [|auto 10].
    apply orders_first; simpl; rewrite <- ?Hom, <- ?Hcc, <- ?Heoq; auto.
Qed.

End WhatIfOrders.

Example sample_simulator_init rel :
  WhatIf.InventorySimulator_init (Sample.files rel) "P1" None None
  = Ok (Sample.simulator rel).
Proof. reflexivity. Qed.

(** ** At most one order in the list *)

Section PendingOrders.

Import WhatIf WhatIfSpec.

Lemma day_step_pending_le_1 mods self g d self' g' r :
  (length (pending_orders (order_mgr self)) <= 1)%nat ->
  day_step mods self g d = Ok (self', g', r) ->
  (length (pending_orders (order_mgr self')) <= 1)%nat /\
  (rec_pending_orders r <= 1)%nat.
Proof.
  intros Hlen Hstep.
  apply day_step_orders in Hstep as (Horders & Hrec & _).
  rewrite Hrec.
  destruct Horders as [Hsame _ _ | _ Hnew _].
  - rewrite Hsame. auto.
  - rewrite Hnew. simpl. auto.
Qed.

Lemma run_loop_pending_le_1 mods days self g acc self' g' recs :
  (length (pending_orders (order_mgr self)) <= 1)%nat ->
  Forall (fun r => (rec_pending_orders r <= 1)%nat) acc ->
  run_loop mods self g days acc = Ok (self', g', recs) ->
  (length (pending_orders (order_mgr self')) <= 1)%nat /\
  Forall (fun r => (rec_pending_orders r <= 1)%nat) recs.
Proof.
  intros Hlen Hacc Hrun.
  eapply (run_loop_invariant mods
            (fun s rs => (length (pending_orders (order_mgr s)) <= 1)%nat /\
                         Forall (fun r => (rec_pending_orders r <= 1)%nat) rs));
    [ | | exact Hrun]; [|auto].
  intros s0 g0 d0 acc0 s0' g0' r0 [Hl Ha] Hd.
  destruct (day_step_pending_le_1 _ _ _ _ _ _ _ Hl Hd) as [Hl' Hr'].
  split; [exact Hl'|]. apply Forall_app_2; auto.
Qed.

End PendingOrders.

Section DashboardOrders.

Import Dashboard DashboardSpec.

Variables (policy : Policy) (supplier : Supplier) (fc : list ForecastRow).

Lemma dashboard_day_step_pending st d :
  pending_orders (day_step policy supplier fc st d) =
  if dashboard_places policy fc st d
  then still_pending (pending_orders st) d ++ [dashboard_order policy supplier d]
  else still_pending (pending_orders st) d.
Proof.
  unfold day_step, dashboard_places, transactions, dashboard_order. cbv zeta.
  destruct (_ && _); reflexivity.
Qed.

Lemma dashboard_day_step_stock st d :
  let opening := current_stock st + arrived_on (pending_orders st) d in
  current_stock (day_step policy supplier fc st d)
  = opening - Z.min opening (daily_demand fc d).
Proof. reflexivity. Qed.

Lemma still_pending_length pending d :
  (length (still_pending pending d) <= length pending)%nat.
Proof. unfold still_pending. apply filter_length_le. Qed.

Lemma dashboard_day_step_pending_le_1 st d :
  (length (pending_orders st) <= 1)%nat ->
  (length (pending_orders (day_step policy supplier fc st d)) <= 1)%nat.
Proof.
  intros Hlen. rewrite dashboard_day_step_pending.
  pose proof (still_pending_length (pending_orders st) d) as Hs.
  unfold dashboard_places.
  destruct (still_pending (pending_orders st) d) as [|o rest] eqn:Hstill.
  - destruct (_ && _); simpl; lia.
  - rewrite andb_false_r. lia.
Qed.

Lemma dashboard_run_loop_pending_le_1 days :
  forall st,
    (length (pending_orders st) <= 1)%nat ->
    (length (pending_orders (run_loop policy supplier fc st days)) <= 1)%nat.
Proof.
  unfold run_loop.
  induction days as [|d days IH]; intros st Hlen; simpl; [exact Hlen|].
  apply IH. now apply dashboard_day_step_pending_le_1.
Qed.

End DashboardOrders.

(** ** C2: at most one order at a time *)

Section AtMostOneOrder.

Import WhatIf WhatIfSpec.

(** C2. In both engines, on every simulated day of every run, the list of
    pending orders holds at most one order (so at most one order is
    outstanding), and a day only adds an order to an empty list.  For
    [what_if_simulator]: every record of a run that starts with at most one
    order in the list (an empty list, for a new simulator) shows at most one
    pending order, and a day that changes the list found it empty.  For the
    dashboard: the list has at most one element after any number of days,
    and an order is placed only when nothing is left in the list. *)
Theorem pending_orders_at_most_one :
  (forall files pid hr fs self,
      InventorySimulator_init files pid hr fs = Ok self ->
      pending_orders (order_mgr self) = []) /\
  (forall self g start_date end_date mods hr fs out self' g',
      (length (pending_orders (order_mgr self)) <= 1)%nat ->
      run self g start_date end_date mods hr fs = Ok (out, self', g') ->
      Forall (fun r => (rec_pending_orders r <= 1)%nat) (timeline out) /\
      (length (pending_orders (order_mgr self')) <= 1)%nat) /\
  (forall mods self g d self' g' r,
      day_step mods self g d = Ok (self', g', r) ->
      pending_orders (order_mgr self') <> pending_orders (order_mgr self) ->
      pending_orders (order_mgr self) = [] /\
      length (pending_orders (order_mgr self')) = 1%nat) /\
  (forall policy supplier fc st days,
      (length (Dashboard.pending_orders st) <= 1)%nat ->
      (length (Dashboard.pending_orders
                 (Dashboard.run_loop policy supplier fc st days)) <= 1)%nat) /\
  (forall policy supplier fc st d,
      Dashboard.pending_orders (Dashboard.day_step policy supplier fc st d)
        <> Dashboard.still_pending (Dashboard.pending_orders st) d ->
      Dashboard.still_pending (Dashboard.pending_orders st) d = [] /\
      length (Dashboard.pending_orders
                (Dashboard.day_step policy supplier fc st d)) = 1%nat).
Proof.
  split; [|split; [|split; [|split]]].
  - intros files pid hr fs self. unfold InventorySimulator_init.
    destruct (load_product_data files pid) as [pd|e];
      unfold mbind, result_bind; [|discriminate].
    intros H. injection H as <-. reflexivity.
  - intros self g start_date end_date mods hr fs out self' g' Hlen Hrun.
    apply run_Ok in Hrun as (self0 & Henter & Hloop & _).
    assert (Hlen0 : (length (pending_orders (order_mgr self0)) <= 1)%nat).
    { pose proof (enters_orders _ _ _ _ _ _ Henter) as Ho.
      destruct fs; [rewrite Ho; simpl; lia | now rewrite Ho]. }
    destruct (run_loop_pending_le_1 _ _ _ _ _ _ _ _ Hlen0 (Forall_nil_2 _) Hloop);
      auto.
  - intros mods self g d self' g' r Hstep Hchanged.
    apply day_step_orders in Hstep as (Horders & _).
    destruct Horders as [Hsame _ _ | Hempty Hnew _]; [contradiction|].
    rewrite Hnew. auto.
  - intros. now apply dashboard_run_loop_pending_le_1.
  - intros policy supplier fc st d. rewrite dashboard_day_step_pending.
    unfold DashboardSpec.dashboard_places.
    destruct (Dashboard.still_pending (Dashboard.pending_orders st) d)
      as [|o rest].
    + destruct (_ && _); [auto | contradiction].
    + rewrite andb_false_r. contradiction.
Qed.

Lemma pending_orders_at_most_one_witness :
  (exists out self' g',
      Sample.run_april (9 # 10) Sample.low_draws 739360 = Ok (out, self', g') /\
      Forall (fun r => (rec_pending_orders r <= 1)%nat) (timeline out) /\
      length (timeline out) = 19%nat) /\
  (length (Dashboard.pending_orders
             (Dashboard.run_loop Sample.dashboard_policy
                Sample.dashboard_supplier Sample.dashboard_forecast
                (Dashboard.mkLoop 60 [] []) Sample.april)) <= 1)%nat.
Proof.
  destruct pending_orders_at_most_one as (_ & Hrun & _ & Hdash & _).
  unfold Sample.run_april.
  split.
  - destruct (run (Sample.simulator (9 # 10)) Sample.low_draws
                739342 739360 None None None)
      as [[[out self'] g']|e] eqn:Heq.
    + exists out, self', g'. split; [reflexivity|].
      assert (Hlen : (length (pending_orders
                (order_mgr (Sample.simulator (9 # 10)))) <= 1)%nat)
        by (simpl; lia).
      destruct (Hrun (Sample.simulator (9 # 10)) Sample.low_draws
                  739342 739360 None None None out self' g' Hlen Heq)
        as [Hrecs _].
      split; [exact Hrecs|].
      vm_compute in Heq. injection Heq as <- _ _. reflexivity.
    + vm_compute in Heq. discriminate.
  - apply Hdash. simpl. lia.
Defined.

End AtMostOneOrder.

(** ** C10: one order per run *)

Section SingleOrder.

Import WhatIf WhatIfSpec.






End SingleOrder.

(** ** C3: consumption *)

Section Consumption.

Import WhatIf WhatIfSpec.

Lemma process_order_arrivals_nonneg self d :
  0 <= current_stock self ->
  Forall (fun o => 0 <= quantity o) (pending_orders (order_mgr self)) ->
  0 <= current_stock (_process_order_arrivals self d).
Proof.
  unfold _process_order_arrivals, get_pending_orders. simpl.
  generalize (current_stock self) as stock.
  induction (pending_orders (order_mgr self)) as [|o orders IH];
    intros stock Hstock Hq; simpl; [exact Hstock|].
  apply Forall_cons in Hq as [Ho Hq].
  apply IH; [|exact Hq].
  destruct (arrival_date o =? d); lia.
Qed.

Lemma check_reorder_point_stock self g d :
  current_stock (fst (_check_reorder_point self g d)) = current_stock self.
Proof.
  unfold _check_reorder_point, place_order, random_random.
  destruct (_ && _); [|reflexivity].
  destruct (Qgtb _ _); reflexivity.
Qed.

Lemma day_step_record_nonneg mods self g d self' g' r :
  day_step mods self g d = Ok (self', g', r) ->
  0 <= current_stock self' /\ rec_inventory r = current_stock self' /\
  0 <= rec_stockout r.
Proof.
  intros Hstep.
  apply day_step_Ok in Hstep as (demand & _ & _ & Hself & Hr).
  cbv zeta in Hself. subst r. simpl.
  set (s1 := fst (_update_inventory (_process_order_arrivals self d) demand))
    in *.
  assert (Hs1 : 0 <= current_stock s1) by (subst s1; simpl; lia).
  pose proof (check_reorder_point_stock s1 g d) as Hs2.
  subst self'. simpl. rewrite Hs2. repeat split; try lia.
Qed.

Lemma day_step_quantities mods self g d self' g' r :
  0 <= Z.max (sim_eoq self) (om_moq (order_mgr self)) ->
  Forall (fun o => 0 <= quantity o) (pending_orders (order_mgr self)) ->
  day_step mods self g d = Ok (self', g', r) ->
  0 <= Z.max (sim_eoq self') (om_moq (order_mgr self')) /\
  Forall (fun o => 0 <= quantity o) (pending_orders (order_mgr self')).
Proof.
  intros Hmax Hq Hstep.
  apply day_step_orders in Hstep as (Horders & _ & _ & _ & Hmoq & Heoq & _).
  rewrite Hmoq, Heoq. split; [exact Hmax|].
  destruct Horders as [Hsame _ _ | _ Hnew _].
  - now rewrite Hsame.
  - rewrite Hnew. apply Forall_cons. split; [exact Hmax|constructor].
Qed.

End Consumption.

Section DashboardConsumption.

Import Dashboard DashboardSpec.

Variables (policy : Policy) (supplier : Supplier) (fc : list ForecastRow).

Lemma transactions_spec s d :
  transactions s d = (Z.min s d, Z.max (d - s) 0, Z.max (s - d) 0).
Proof. unfold transactions. cbv zeta. f_equal; [f_equal|]; lia. Qed.

Lemma arrived_on_nonneg pending d :
  Forall (fun o => 0 <= snd o) pending -> 0 <= arrived_on pending d.
Proof.
  unfold arrived_on.
  induction pending as [|o pending IH]; intros Hq; simpl; [lia|].
  apply Forall_cons in Hq as [Ho Hq].
  destruct (fst o =? d); simpl; [pose proof (IH Hq); lia | auto].
Qed.

Lemma still_pending_Forall (P : date * Z -> Prop) pending d :
  Forall P pending -> Forall P (still_pending pending d).
Proof.
  unfold still_pending.
  induction pending as [|o pending IH]; intros Hq; simpl; [constructor|].
  apply Forall_cons in Hq as [Ho Hq].
  destruct (d <? fst o); [apply Forall_cons; split|]; auto.
Qed.

(** The row written by a day. *)
Lemma dashboard_day_step_ledger st d :
  exists e,
    ledger (day_step policy supplier fc st d) = ledger st ++ [e] /\
    entry_date e = d /\
    entry_opening_stock e = current_stock st + arrived_on (pending_orders st) d /\
    entry_demand e = daily_demand fc d /\
    entry_closing_stock e = current_stock (day_step policy supplier fc st d) /\
    entry_restock_qty e =
      (if dashboard_places policy fc st d
       then snd (dashboard_order policy supplier d) else 0) /\
    entry_consistent e.
Proof.
  unfold day_step, dashboard_places, dashboard_order, entry_consistent,
    transactions.
  cbv zeta. eexists. simpl. split; [reflexivity|]. simpl.
  repeat split; try reflexivity; lia.
Qed.

Lemma dashboard_day_step_stock_ok st d :
  0 <= Z.max (eoq policy) (MOQ supplier) ->
  dashboard_stock_ok st ->
  dashboard_stock_ok (day_step policy supplier fc st d).
Proof.
  intros Hmax (Hstock & Hq & Hledger).
  pose proof (arrived_on_nonneg _ d Hq) as Harr.
  destruct (dashboard_day_step_ledger st d)
    as (e & Hl & _ & Hopen & _ & Hclose & _ & Hcons).
  unfold dashboard_stock_ok. rewrite Hl. rewrite <- Hclose.
  split; [apply Hcons|].
  split.
  - rewrite dashboard_day_step_pending.
    pose proof (still_pending_Forall (fun o => 0 <= snd o) _ d Hq) as Hs.
    destruct (dashboard_places policy fc st d); [|exact Hs].
    apply Forall_app_2; [exact Hs|].
    apply Forall_cons; split; [exact Hmax|constructor].
  - apply Forall_app_2; [exact Hledger|].
    apply Forall_cons; split; [|constructor].
    split; [rewrite Hopen; lia | exact Hcons].
Qed.

Lemma dashboard_run_loop_stock_ok days :
  0 <= Z.max (eoq policy) (MOQ supplier) ->
  forall st, dashboard_stock_ok st ->
             dashboard_stock_ok (run_loop policy supplier fc st days).
Proof.
  intros Hmax. unfold run_loop.
  induction days as [|d days IH]; intros st Hst; simpl; [exact Hst|].
  apply IH. now apply dashboard_day_step_stock_ok.
Qed.

End DashboardConsumption.

Section ConsumptionTheorem.

Import WhatIf WhatIfSpec.

(** C3. The consumption step with available stock [s] and demand [d]:
    the dashboard computes sold = min(s, d), unmet = max(d - s, 0) and a
    closing stock max(s - d, 0); [_update_inventory] of [what_if_simulator]
    returns the stockout max(d - s, 0) and leaves the stock max(s - d, 0).
    Stock is never negative along a run: in [what_if_simulator], from a
    non-negative stock and order quantities that are not negative, the
    stock is non-negative after the arrivals of any day, and every record
    of the loop has a non-negative inventory and stockout; in the
    dashboard, from a non-negative initial stock, every ledger row has a
    non-negative stock after arrivals and after consumption and obeys the
    three formulas. *)
Theorem consumption_never_negative :
  (forall s d,
      Dashboard.transactions s d = (Z.min s d, Z.max (d - s) 0, Z.max (s - d) 0)) /\
  (forall self d,
      _update_inventory self d =
      (with_current_stock self (Z.max (current_stock self - d) 0),
       Z.max (d - current_stock self) 0)) /\
  (forall mods days self g self' g' recs,
      0 <= current_stock self ->
      0 <= Z.max (sim_eoq self) (om_moq (order_mgr self)) ->
      Forall (fun o => 0 <= quantity o) (pending_orders (order_mgr self)) ->
      run_loop mods self g days [] = Ok (self', g', recs) ->
      Forall (fun r => 0 <= rec_inventory r /\ 0 <= rec_stockout r) recs /\
      0 <= current_stock self' /\
      forall d, 0 <= current_stock (_process_order_arrivals self' d)) /\
  (forall policy supplier fc stock days,
      0 <= stock ->
      0 <= Z.max (Dashboard.eoq policy) (Dashboard.MOQ supplier) ->
      let st := Dashboard.run_loop policy supplier fc
                  (Dashboard.mkLoop stock [] []) days in
      0 <= Dashboard.current_stock st /\
      Forall (fun e => 0 <= Dashboard.entry_opening_stock e /\
                       DashboardSpec.entry_consistent e)
             (Dashboard.ledger st)).
Proof.
  split; [exact transactions_spec|].
  split.
  { intros self d. unfold _update_inventory. do 2 f_equal. lia. }
  split.
  - intros mods days self g self' g' recs Hstock Hmax Hq Hloop.
    assert (Hinv :
      (0 <= current_stock self' /\
       0 <= Z.max (sim_eoq self') (om_moq (order_mgr self')) /\
       Forall (fun o => 0 <= quantity o) (pending_orders (order_mgr self'))) /\
      Forall (fun r => 0 <= rec_inventory r /\ 0 <= rec_stockout r) recs).
    { eapply (run_loop_invariant mods
        (fun s rs =>
           (0 <= current_stock s /\
            0 <= Z.max (sim_eoq s) (om_moq (order_mgr s)) /\
            Forall (fun o => 0 <= quantity o) (pending_orders (order_mgr s))) /\
           Forall (fun r => 0 <= rec_inventory r /\ 0 <= rec_stockout r) rs));
        [ | | exact Hloop]; [|auto].
      intros s0 g0 d0 acc0 s0' g0' r0 [(_ & Hm & Hqq) Hacc] Hd.
      destruct (day_step_record_nonneg _ _ _ _ _ _ _ Hd) as (Hs0 & Hinvt & Hso).
      destruct (day_step_quantities _ _ _ _ _ _ _ Hm Hqq Hd) as (Hm0 & Hq0).
      split; [auto|].
      apply Forall_app_2; [exact Hacc|].
      apply Forall_cons; split; [|constructor].
      rewrite Hinvt. auto. }
    destruct Hinv as ((Hs' & Hm' & Hq') & Hrecs).
    split; [exact Hrecs|]. split; [exact Hs'|].
    intros d. now apply process_order_arrivals_nonneg.
  - intros policy supplier fc stock days Hstock Hmax st.
    assert (H0 : DashboardSpec.dashboard_stock_ok (Dashboard.mkLoop stock [] [])).
    { unfold DashboardSpec.dashboard_stock_ok. simpl. repeat split; auto. }
    destruct (dashboard_run_loop_stock_ok policy supplier fc days Hmax _ H0)
      as (Hs & _ & Hl).
    split; assumption.
Qed.

Lemma consumption_never_negative_witness :
  (exists self' g' recs,
      run_loop None
        (with_current_stock (Sample.simulator (9 # 10)) 60)
        Sample.low_draws (date_range 739342 739360) [] = Ok (self', g', recs) /\
      Forall (fun r => 0 <= rec_inventory r /\ 0 <= rec_stockout r) recs /\
      0 <= current_stock self') /\
  Forall (fun e => 0 <= Dashboard.entry_opening_stock e /\
                   DashboardSpec.entry_consistent e)
    (Dashboard.ledger
       (Dashboard.run_loop Sample.dashboard_policy Sample.dashboard_supplier
          Sample.dashboard_forecast (Dashboard.mkLoop 60 [] []) Sample.april)).
Proof.
  destruct consumption_never_negative as (_ & _ & Hloop & Hdash).
  split.
  - destruct (run_loop None
                (with_current_stock (Sample.simulator (9 # 10)) 60)
                Sample.low_draws (date_range 739342 739360) [])
      as [[[self' g'] recs]|e] eqn:Heq.
    + exists self', g', recs. split; [reflexivity|].
      assert (H1 : 0 <= current_stock
                          (with_current_stock (Sample.simulator (9 # 10)) 60))
        by (simpl; lia).
      assert (H2 : 0 <= Z.max
                 (sim_eoq (with_current_stock (Sample.simulator (9 # 10)) 60))
                 (om_moq (order_mgr
                    (with_current_stock (Sample.simulator (9 # 10)) 60))))
        by (simpl; lia).
      assert (H3 : Forall (fun o => 0 <= quantity o)
                 (pending_orders (order_mgr
                    (with_current_stock (Sample.simulator (9 # 10)) 60))))
        by (simpl; constructor).
      destruct (Hloop None (date_range 739342 739360)
                  (with_current_stock (Sample.simulator (9 # 10)) 60)
                  Sample.low_draws self' g' recs H1 H2 H3 Heq)
        as (Hrecs & Hstock & _).
      split; assumption.
    + vm_compute in Heq. discriminate.
  - refine (proj2 (Hdash Sample.dashboard_policy Sample.dashboard_supplier
                     Sample.dashboard_forecast 60 Sample.april _ _));
      simpl; lia.
Defined.

End ConsumptionTheorem.

(** ** C1: arrivals *)

Section Arrivals.

Import WhatIf WhatIfSpec.

(** The dashboard removes what has arrived: after the arrivals of day [d]
    every order left in the list is due after [d], and an order due on [d]
    has been added to the stock. *)
Lemma dashboard_still_pending_later pending d :
  Forall (fun o => d < fst o) (Dashboard.still_pending pending d).
Proof.
  unfold Dashboard.still_pending.
  induction pending as [|o pending IH]; simpl; [constructor|].
  destruct (d <? fst o) eqn:Hlt; [|exact IH].
  apply Forall_cons. split; [now apply Z.ltb_lt|exact IH].
Qed.

Lemma dashboard_arrival_collected policy supplier fc stock d q ledger0 :
  let st0 := Dashboard.mkLoop stock [(d, q)] ledger0 in
  let st := Dashboard.day_step policy supplier fc st0 d in
  Dashboard.current_stock st
    = stock + q - Z.min (stock + q) (Dashboard.daily_demand fc d) /\
  Dashboard.pending_orders st
    = if DashboardSpec.dashboard_places policy fc st0 d
      then [DashboardSpec.dashboard_order policy supplier d]
      else [].
Proof.
  cbv zeta.
  assert (Harr : Dashboard.arrived_on [(d, q)] d = q).
  { unfold Dashboard.arrived_on. simpl. rewrite Z.eqb_refl. simpl. lia. }
  assert (Hstill : Dashboard.still_pending [(d, q)] d = []).
  { unfold Dashboard.still_pending. simpl. now rewrite Z.ltb_irrefl. }
  split.
  - rewrite dashboard_day_step_stock. simpl Dashboard.current_stock.
    simpl Dashboard.pending_orders. now rewrite Harr.
  - rewrite dashboard_day_step_pending. simpl Dashboard.pending_orders.
    now rewrite Hstill.
Qed.

(** C1. In [what_if_simulator] the arrival of an order adds its quantity
    to the stock and leaves the order in the list.  Product P1 with
    reliability 0.9 and a generator that yields 0.3: the order of 200
    stored on 2025-04-01 arrives on 2025-04-08 (day 739349), where the
    inventory goes from 0 to 180 after the demand of 20; on that day and on
    the two days after it the record still counts one pending order, and
    the list returned at the end still holds the order. *)
Theorem arrival_keeps_order_in_list :
  exists out self' g',
    run (Sample.simulator (9 # 10)) Sample.low_draws
        739342 739351 None None None = Ok (out, self', g') /\
    map (fun r => (rec_date r, rec_inventory r, rec_pending_orders r))
        (timeline out)
    = [(739342, 40, 1%nat); (739343, 20, 1%nat); (739344, 0, 1%nat);
       (739345, 0, 1%nat); (739346, 0, 1%nat); (739347, 0, 1%nat);
       (739348, 0, 1%nat); (739349, 180, 1%nat); (739350, 160, 1%nat);
       (739351, 140, 1%nat)] /\
    get_pending_orders (order_mgr self') = [mkOrder 739349 200 "pending"].
Proof.
  destruct (run (Sample.simulator (9 # 10)) Sample.low_draws
                739342 739351 None None None)
    as [[[out self'] g']|e] eqn:Heq.
  - exists out, self', g'. split; [reflexivity|].
    vm_compute in Heq. injection Heq as <- <- _.
    split; reflexivity.
  - vm_compute in Heq. discriminate.
Qed.

End Arrivals.

(** ** C7: costs *)

Section Costs.

Import WhatIf WhatIfSpec.

Lemma update_costs_totals c closing_stock stockout_qty :
  total_holding (update_costs c closing_stock stockout_qty)
    = (total_holding c + inject_Z closing_stock * holding_rate c)%Q /\
  total_stockout (update_costs c closing_stock stockout_qty)
    = (total_stockout c + inject_Z stockout_qty * stockout_penalty c)%Q /\
  total_ordering (update_costs c closing_stock stockout_qty) = total_ordering c.
Proof. repeat split. Qed.

Lemma add_order_cost_totals c :
  total_ordering (add_order_cost c) = (total_ordering c + order_cost c)%Q /\
  total_holding (add_order_cost c) = total_holding c /\
  total_stockout (add_order_cost c) = total_stockout c.
Proof. repeat split. Qed.

(** The rate of a new simulator does not depend on the policy or on the
    annual rate given to the constructor. *)
Lemma init_holding_rate files pid hr fs self :
  InventorySimulator_init files pid hr fs = Ok self ->
  holding_rate (cost_calc self) = (1 # 5)%Q.
Proof.
  unfold InventorySimulator_init.
  destruct (load_product_data files pid) as [pd|e];
    unfold mbind, result_bind; [|discriminate].
  intros H. injection H as <-. reflexivity.
Qed.

(** With a rate given to [run], the daily rate is the documented one. *)
Lemma run_holding_rate self g start_date end_date mods r fs out self' g' :
  run self g start_date end_date mods (Some r) fs = Ok (out, self', g') ->
  holding_rate (cost_calc self')
  = (unit_cost (policy (product_data self)) * r / 365)%Q.
Proof.
  intros Hrun.
  apply run_Ok in Hrun as (self0 & Henter & Hloop & _).
  pose proof (enters_costs _ _ _ _ _ _ Henter) as Hc.
  assert (H0 : holding_rate (cost_calc self0)
               = (unit_cost (policy (product_data self)) * r / 365)%Q)
    by (rewrite Hc; reflexivity).
  revert H0. generalize (unit_cost (policy (product_data self)) * r / 365)%Q.
  intros rate H0.
  eapply (run_loop_invariant mods
            (fun s _ => holding_rate (cost_calc s) = rate));
    [ | exact H0 | exact Hloop].
  intros s0 g0 d0 acc0 s0' g0' r0 HI Hd.
  apply day_step_Ok in Hd as (demand & _ & _ & Hs & _).
  cbv zeta in Hs. rewrite Hs. simpl.
  pose proof (check_reorder_point_outcome
                (fst (_update_inventory (_process_order_arrivals s0 d0) demand))
                g0 d0) as Hout.
  inversion Hout as [Ha Hb Hc' | Ha Hb Hc' Hd' He | Ha Hb Hc' Hd' He];
    simpl; exact HI.
Qed.

(** C7. A simulator built for P1 (unit cost 10) without a holding rate,
    and run without one: the documented daily rate is
    [10 * 0.25 / 365]; the accountant uses 0.20 per unit and day.  Over
    2025-04-01 to 2025-04-19 the closing stocks add up to 960, and the
    reported holding cost is 192.00 = 960 * 0.20, not
    [round(960 * 10 * 0.25 / 365, 2)] = 6.58. *)
Theorem holding_rate_argument_ignored :
  holding_rate (CostCalculator_init (10 * (1 # 4) / 365) 20 5) = (1 # 5)%Q /\
  ~ (holding_rate (CostCalculator_init (10 * (1 # 4) / 365) 20 5)
     == 10 * (1 # 4) / 365)%Q /\
  exists out self' g',
    run (Sample.simulator (9 # 10)) Sample.low_draws
        739342 739360 None None None = Ok (out, self', g') /\
    fold_right Z.add 0 (map rec_inventory (timeline out)) = 960 /\
    (total_holding_cost (metrics out) == 192)%Q /\
    (round2 (960 * (10 * (1 # 4) / 365)) == 658 # 100)%Q.
Proof.
  split; [reflexivity|]. split; [vm_compute; discriminate|].
  destruct (run (Sample.simulator (9 # 10)) Sample.low_draws
                739342 739360 None None None)
    as [[[out self'] g']|e] eqn:Heq.
  - exists out, self', g'. split; [reflexivity|].
    vm_compute in Heq. injection Heq as <- _ _.
    repeat split; vm_compute; reflexivity.
  - vm_compute in Heq. discriminate.
Qed.

End Costs.

(** ** C4: quantity and arrival date of an order *)

Section PlaceOrder.

Import WhatIf WhatIfSpec.









End PlaceOrder.

(** ** C5: the reorder check *)

Section ReorderCheck.

Import WhatIf WhatIfSpec.

Lemma init_rop files pid hr fs self :
  InventorySimulator_init files pid hr fs = Ok self ->
  rop self = reorder_point (policy (product_data self))
             + safety_stock (policy (product_data self)) /\
  sim_eoq self = eoq (policy (product_data self)).
Proof.
  unfold InventorySimulator_init.
  destruct (load_product_data files pid) as [pd|e];
    unfold mbind, result_bind; [|discriminate].
  intros H. injection H as <-. split; reflexivity.
Qed.

(** A day of [what_if_simulator] takes one draw exactly when the stock
    left after consumption is at most [rop] and the list is empty. *)
Lemma day_step_attempt mods self g d self' g' r :
  day_step mods self g d = Ok (self', g', r) ->
  draws g' = draws g /\
  (cursor g' = S (cursor g) <->
   rec_inventory r <= rop self /\ pending_orders (order_mgr self) = []) /\
  (cursor g' = cursor g \/ cursor g' = S (cursor g)).
Proof.
  intros Hstep.
  apply day_step_Ok in Hstep as (demand & _ & Hg & Hself & Hr).
  cbv zeta in Hg, Hself.
  set (s1 := fst (_update_inventory (_process_order_arrivals self d) demand))
    in *.
  assert (Hs1 : order_mgr s1 = order_mgr self /\ rop s1 = rop self)
    by (subst s1; simpl; auto).
  destruct Hs1 as (Hom & Hrop).
  pose proof (check_reorder_point_stock s1 g d) as Hstock.
  pose proof (check_reorder_point_outcome s1 g d) as Hout.
  rewrite <- Hg in Hout.
  assert (Hinv : rec_inventory r = current_stock s1).
  { rewrite Hr, Hself. simpl. exact Hstock. }
  rewrite Hinv. clearbody s1. clear Hstock Hinv Hr Hself Hg.
  remember (fst (_check_reorder_point s1 g d)) as s2 eqn:Hs2. clear Hs2.
  rewrite <- Hom, <- Hrop.
  inversion Hout as [Hclosed Hs Hgg | Hle Hempty Hdraw Hs Hgg
                    | Hle Hempty Hdraw Hs Hgg]; simpl.
  - split; [reflexivity|]. split; [|auto].
    split; [lia|]. intros [Hle Hempty]. exfalso.
    apply Z.leb_le in Hle. rewrite Hle, Hempty in Hclosed. discriminate.
  - split; [reflexivity|]. split; [|auto]. split; auto.
  - split; [reflexivity|]. split; [|auto]. split; auto.
Qed.

(** Against C5.  The dashboard on 2025-04-01 with reorder point 50: a
    stock of 70 and a demand of 20 leave exactly 50, and no order is
    placed; with a safety stock of 10 besides, a stock of 75 leaves 55,
    below 50 + 10, and no order is placed either. *)
Lemma reorder_threshold_counterexample :
  (let st := Dashboard.day_step Sample.dashboard_policy
               Sample.dashboard_supplier Sample.dashboard_forecast
               (Dashboard.mkLoop 70 [] []) 739342 in
   Dashboard.current_stock st
   = Dashboard.reorder_point Sample.dashboard_policy
     + Dashboard.safety_stock Sample.dashboard_policy /\
   Dashboard.pending_orders st = [] /\
   map Dashboard.entry_restock_qty (Dashboard.ledger st) = [0]) /\
  (let policy := Dashboard.mkPolicy "P1" "S1" 200 50 10 10 in
   let st := Dashboard.day_step policy
               Sample.dashboard_supplier Sample.dashboard_forecast
               (Dashboard.mkLoop 75 [] []) 739342 in
   Dashboard.current_stock st
   <= Dashboard.reorder_point policy + Dashboard.safety_stock policy /\
   Dashboard.pending_orders st = [] /\
   map Dashboard.entry_restock_qty (Dashboard.ledger st) = [0]).
Proof. vm_compute. repeat split; discriminate. Qed.

(** C5, amended.  In [what_if_simulator], where [rop] is
    [reorder_point + safety_stock] and the requested quantity is [eoq], a
    day attempts an order (takes a draw of the generator) if and only if
    the stock after consumption is at most [reorder_point + safety_stock]
    and the list of pending orders is empty; an order that is stored has
    quantity max(eoq, MOQ).  In the dashboard an order is placed if and
    only if the closing stock is strictly below [reorder_point] and no
    order is left in the list after the day's arrivals; the safety stock
    of the policy is not read. *)
Theorem reorder_check_rule :
  (forall files pid hr fs self,
      InventorySimulator_init files pid hr fs = Ok self ->
      rop self = reorder_point (policy (product_data self))
                 + safety_stock (policy (product_data self)) /\
      sim_eoq self = eoq (policy (product_data self))) /\
  (forall mods self g d self' g' r,
      day_step mods self g d = Ok (self', g', r) ->
      (cursor g' = S (cursor g) <->
       rec_inventory r <= rop self /\ pending_orders (order_mgr self) = []) /\
      (cursor g' = cursor g \/ cursor g' = S (cursor g)) /\
      (pending_orders (order_mgr self') <> pending_orders (order_mgr self) ->
       map quantity (pending_orders (order_mgr self'))
       = [Z.max (sim_eoq self) (om_moq (order_mgr self))])) /\
  (forall policy supplier fc st d,
      let st' := Dashboard.day_step policy supplier fc st d in
      let still := Dashboard.still_pending (Dashboard.pending_orders st) d in
      (Dashboard.pending_orders st' <> still <->
       Dashboard.current_stock st' < Dashboard.reorder_point policy /\
       still = []) /\
      (Dashboard.pending_orders st' <> still ->
       map snd (Dashboard.pending_orders st')
       = [Z.max (Dashboard.eoq policy) (Dashboard.MOQ supplier)])).
Proof.
  split; [exact init_rop|]. split.
  - intros mods self g d self' g' r Hstep.
    destruct (day_step_attempt _ _ _ _ _ _ _ Hstep) as (_ & Hiff & Hcur).
    split; [exact Hiff|]. split; [exact Hcur|].
    apply day_step_orders in Hstep as (Horders & _).
    destruct Horders as [Hsame _ _ | _ Hnew _]; [contradiction|].
    intros _. rewrite Hnew. reflexivity.
  - intros policy supplier fc st d. cbv zeta.
    rewrite dashboard_day_step_pending, dashboard_day_step_stock.
    unfold DashboardSpec.dashboard_places, DashboardSpec.dashboard_order.
    cbv zeta.
    destruct (Dashboard.still_pending (Dashboard.pending_orders st) d)
      as [|o rest] eqn:Hstill.
    + simpl Dashboard.is_empty. rewrite andb_true_r.
      destruct (Z.ltb_spec
                  (Dashboard.current_stock st
                   + Dashboard.arrived_on (Dashboard.pending_orders st) d
                   - Z.min (Dashboard.current_stock st
                            + Dashboard.arrived_on
                                (Dashboard.pending_orders st) d)
                           (Dashboard.daily_demand fc d))
                  (Dashboard.reorder_point policy)) as [Hlt|Hge].
      * split; [|reflexivity]. split; [auto|]. intros _. discriminate.
      * split; [|contradiction]. split; [contradiction|]. intros [Hlt _]. lia.
    + simpl Dashboard.is_empty. rewrite andb_false_r.
      split; [|contradiction]. split; [contradiction|].
      intros [_ Habs]. discriminate.
Qed.

Lemma reorder_check_rule_witness :
  (rop (Sample.simulator (9 # 10)) = 50 + 0) /\
  (exists self' g' r,
      day_step None (with_current_stock (Sample.simulator (9 # 10)) 70)
        Sample.low_draws 739342 = Ok (self', g', r) /\
      rec_inventory r = 50 /\ cursor g' = 1%nat /\
      map quantity (pending_orders (order_mgr self')) = [200]) /\
  map snd (Dashboard.pending_orders
             (Dashboard.day_step Sample.dashboard_policy
                Sample.dashboard_supplier Sample.dashboard_forecast
                (Dashboard.mkLoop 60 [] []) 739342)) = [200].
Proof.
  destruct reorder_check_rule as (Hinit & Hstep & Hdash).
  split; [|split].
  - exact (proj1 (Hinit _ _ _ _ _ (sample_simulator_init (9 # 10)))).
  - destruct (day_step None (with_current_stock (Sample.simulator (9 # 10)) 70)
                Sample.low_draws 739342) as [[[self' g'] r]|e] eqn:Heq.
    + exists self', g', r. split; [reflexivity|].
      destruct (Hstep None _ _ _ _ _ _ Heq) as (Hiff & _ & Hqty).
      assert (Hinv : rec_inventory r = 50)
        by (vm_compute in Heq; injection Heq as _ _ <-; reflexivity).
      split; [exact Hinv|]. split.
      * apply Hiff. rewrite Hinv. split; [simpl; lia | reflexivity].
      * rewrite Hqty; [reflexivity|].
        vm_compute in Heq. injection Heq as <- _ _. simpl. discriminate.
    + vm_compute in Heq. discriminate.
  - refine (proj2 (Hdash Sample.dashboard_policy Sample.dashboard_supplier
                     Sample.dashboard_forecast (Dashboard.mkLoop 60 [] [])
                     739342) _).
    vm_compute. discriminate.
Defined.

End ReorderCheck.

(** ** C6: a date without demand *)

Section MissingData.

Import WhatIf WhatIfSpec.

Lemma get_daily_demand_missing self d (mods : option (gmap Z Z)) :
  mods ≫= (fun m => m !! d) = None ->
  List.filter (fun r => forecast_date r =? d) (forecast (product_data self)) = [] ->
  _get_daily_demand self d mods = Raise ValueError.
Proof. unfold _get_daily_demand. intros -> ->. reflexivity. Qed.

Lemma get_daily_demand_override self d (mods : option (gmap Z Z)) q :
  mods ≫= (fun m => m !! d) = Some q ->
  _get_daily_demand self d mods = Ok q.
Proof. unfold _get_daily_demand. intros ->. reflexivity. Qed.

Lemma get_daily_demand_product_data s1 s2 d mods :
  product_data s1 = product_data s2 ->
  _get_daily_demand s1 d mods = _get_daily_demand s2 d mods.
Proof. unfold _get_daily_demand. intros ->. reflexivity. Qed.

(** A loop that ends found a demand for every one of its days. *)
Lemma run_loop_Ok_demand mods days :
  forall self g acc self' g' recs,
    run_loop mods self g days acc = Ok (self', g', recs) ->
    forall d, In d days -> exists q, _get_daily_demand self d mods = Ok q.
Proof.
  induction days as [|d0 days IH]; intros self g acc self' g' recs Hrun d Hin.
  - destruct Hin.
  - simpl in Hrun.
    destruct (day_step mods self g d0) as [[[s1 g1] r1]|e] eqn:Hd;
      unfold mbind, result_bind in Hrun; [|discriminate].
    destruct Hin as [<-|Hin].
    + apply day_step_Ok in Hd as (demand & Hdem & _).
      exists demand. rewrite <- Hdem.
      now apply get_daily_demand_product_data.
    + destruct (IH _ _ _ _ _ _ Hrun d Hin) as [q Hq].
      exists q. rewrite <- Hq.
      apply get_daily_demand_product_data.
      apply day_step_orders in Hd as (_ & _ & _ & _ & _ & _ & _ & Hpd).
      now rewrite Hpd.
Qed.

(** What a run that returns a result has found in the data. *)
Lemma run_Ok_data self g start_date end_date mods hr fs out self' g' :
  run self g start_date end_date mods hr fs = Ok (out, self', g') ->
  validate_date_range (forecast (product_data self)) start_date end_date
    = Ok tt /\
  List.filter (fun r => ledger_date r =? start_date)
              (ledger (product_data self)) <> [] /\
  (forall d, In d (date_range start_date end_date) ->
             exists q, _get_daily_demand self d mods = Ok q) /\
  date_range start_date end_date <> [].
Proof.
  intros Hrun.
  apply run_Ok in Hrun as (self0 & Henter & Hloop & Hout).
  split; [exact (enters_validated _ _ _ _ _ _ Henter)|].
  split.
  { destruct (enters_stock _ _ _ _ _ _ Henter) as (row & rows & -> & _).
    discriminate. }
  split.
  - intros d Hin.
    destruct (run_loop_Ok_demand _ _ _ _ _ _ _ _ Hloop d Hin) as [q Hq].
    exists q. rewrite <- Hq. apply get_daily_demand_product_data.
    symmetry. exact (enters_product_data _ _ _ _ _ _ Henter).
  - intros Hempty. rewrite Hempty in Hloop. simpl in Hloop.
    injection Hloop as _ _ Hrecs. rewrite <- Hrecs in Hout. discriminate.
Qed.

Lemma not_Ok_Raise {A} (r : result A) :
  (forall a, r <> Ok a) -> exists e, r = Raise e.
Proof. destruct r as [a|e]; [intros H; now destruct (H a) | eauto]. Qed.

Lemma run_raises self g start_date end_date mods hr fs :
  validate_date_range (forecast (product_data self)) start_date end_date
    = Raise ValueError \/
  List.filter (fun r => ledger_date r =? start_date)
              (ledger (product_data self)) = [] \/
  (exists d, In d (date_range start_date end_date) /\
             mods ≫= (fun m => m !! d) = None /\
             List.filter (fun r => forecast_date r =? d)
                         (forecast (product_data self)) = []) ->
  exists e, run self g start_date end_date mods hr fs = Raise e.
Proof.
  intros Hcase. apply not_Ok_Raise. intros [[out self'] g'] Hrun.
  apply run_Ok_data in Hrun as (Hv & Hl & Hd & _).
  destruct Hcase as [Hbad|[Hbad|(d & Hin & Hm & Hf)]].
  - rewrite Hbad in Hv. discriminate.
  - contradiction.
  - destruct (Hd d Hin) as [q Hq].
    rewrite (get_daily_demand_missing _ _ _ Hm Hf) in Hq. discriminate.
Qed.


(** Against C6.  The forecast of the dashboard sample covers April 2025;
    the dashboard is asked for 2025-05-01 (day 739372) and answers a
    demand of 0, which goes into the ledger. *)
Lemma silent_zero_fill_counterexample :
  List.filter (fun r => Dashboard.forecast_date r =? 739372)
              Sample.dashboard_forecast = [] /\
  Dashboard.daily_demand Sample.dashboard_forecast 739372 = 0 /\
  map Dashboard.entry_demand
      (Dashboard.ledger
         (Dashboard.day_step Sample.dashboard_policy Sample.dashboard_supplier
            Sample.dashboard_forecast (Dashboard.mkLoop 60 [] []) 739372))
  = [0].
Proof. vm_compute. repeat split. Qed.

(** C6, amended.  In [what_if_simulator] the demand of a date is the
    override when there is one; with neither an override nor a forecast row
    the lookup raises ([ValueError]), and so does a run whose range holds
    such a date.  The dashboard takes a demand of 0 for a date without a
    forecast row. *)
Theorem missing_demand_rule :
  (forall self d (mods : option (gmap Z Z)),
      mods ≫= (fun m => m !! d) = None ->
      List.filter (fun r => forecast_date r =? d)
                  (forecast (product_data self)) = [] ->
      _get_daily_demand self d mods = Raise ValueError) /\
  (forall self d (mods : option (gmap Z Z)) q,
      mods ≫= (fun m => m !! d) = Some q ->
      _get_daily_demand self d mods = Ok q) /\
  (forall self g start_date end_date (mods : option (gmap Z Z)) hr fs d,
      In d (date_range start_date end_date) ->
      mods ≫= (fun m => m !! d) = None ->
      List.filter (fun r => forecast_date r =? d)
                  (forecast (product_data self)) = [] ->
      exists e, run self g start_date end_date mods hr fs = Raise e) /\
  (forall fc d,
      List.filter (fun r => Dashboard.forecast_date r =? d) fc = [] ->
      Dashboard.daily_demand fc d = 0).
Proof.
  split; [exact get_daily_demand_missing|].
  split; [exact get_daily_demand_override|].
  split.
  - intros self g start_date end_date mods hr fs d Hin Hm Hf.
    apply run_raises. right. right. eauto.
  - intros fc d Hf. unfold Dashboard.daily_demand. now rewrite Hf.
Qed.

Lemma missing_demand_rule_witness :
  _get_daily_demand Sample.simulator_gap 739344 None = Raise ValueError /\
  _get_daily_demand Sample.simulator_gap 739344 (Some {[739344 := 7]}) = Ok 7 /\
  (exists e, run Sample.simulator_gap Sample.low_draws 739342 739350
                 None None None = Raise e) /\
  Dashboard.daily_demand Sample.dashboard_forecast 739372 = 0.
Proof.
  destruct missing_demand_rule as (Hmiss & Hover & Hrun & Hdash).
  split; [|split; [|split]].
  - apply Hmiss; reflexivity.
  - apply Hover. simpl. apply lookup_singleton_eq.
  - apply (Hrun _ _ _ _ _ _ _ 739344); [|reflexivity|reflexivity].
    vm_compute. tauto.
  - apply Hdash. reflexivity.
Defined.

End MissingData.

(** ** C9: errors and the caller *)

Section ErrorsReachCaller.

Import WhatIf WhatIfSpec.




End ErrorsReachCaller.

(** ** C8: the random draws *)

Section Determinism.

Import WhatIf WhatIfSpec.

Lemma agree_weaken n g1 g2 : agree (S n) g1 g2 -> agree n g1 g2.
Proof. intros H i Hi. apply H. lia. Qed.

Lemma agree_advance n g1 g2 :
  agree (S n) g1 g2 ->
  agree n (mkRng (draws g1) (S (cursor g1))) (mkRng (draws g2) (S (cursor g2))).
Proof.
  intros H i Hi. simpl.
  replace (S (cursor g1 + i)) with (cursor g1 + S i)%nat by lia.
  replace (S (cursor g2 + i)) with (cursor g2 + S i)%nat by lia.
  apply H. lia.
Qed.

Lemma agree_head n g1 g2 :
  agree (S n) g1 g2 -> draws g1 (cursor g1) = draws g2 (cursor g2).
Proof.
  intros H. specialize (H 0%nat). rewrite !Nat.add_0_r in H. apply H. lia.
Qed.

Lemma check_reorder_point_agree n self g1 g2 d :
  agree (S n) g1 g2 ->
  fst (_check_reorder_point self g1 d) = fst (_check_reorder_point self g2 d) /\
  agree n (snd (_check_reorder_point self g1 d))
          (snd (_check_reorder_point self g2 d)).
Proof.
  intros Hagree.
  unfold _check_reorder_point, place_order, random_random.
  destruct (_ && _).
  - rewrite (agree_head _ _ _ Hagree).
    destruct (Qgtb _ _); simpl; (split; [reflexivity|]);
      now apply agree_advance.
  - simpl. split; [reflexivity|]. now apply agree_weaken.
Qed.

Lemma day_step_agree n mods self g1 g2 d :
  agree (S n) g1 g2 ->
  same_outcome n (day_step mods self g1 d) (day_step mods self g2 d).
Proof.
  intros Hagree. unfold day_step.
  destruct (_get_daily_demand _ _ _) as [demand|e];
    unfold mbind, result_bind; [|reflexivity].
  destruct (_update_inventory _ demand) as [s1 stockout].
  destruct (check_reorder_point_agree n s1 g1 g2 d Hagree) as [Hs Hg].
  destruct (_check_reorder_point s1 g1 d) as [sa ga].
  destruct (_check_reorder_point s1 g2 d) as [sb gb].
  simpl in Hs, Hg. subst sb. simpl. auto.
Qed.

Lemma run_loop_agree mods days :
  forall self g1 g2 acc,
    agree (length days) g1 g2 ->
    same_outcome 0 (run_loop mods self g1 days acc)
                   (run_loop mods self g2 days acc).
Proof.
  induction days as [|d days IH]; intros self g1 g2 acc Hagree.
  - simpl. auto.
  - simpl in Hagree. simpl run_loop.
    pose proof (day_step_agree _ mods self g1 g2 d Hagree) as Hday.
    destruct (day_step mods self g1 d) as [[[sa ga] ra]|ea];
      destruct (day_step mods self g2 d) as [[[sb gb] rb]|eb];
      simpl in Hday; try contradiction; unfold mbind, result_bind.
    + destruct Hday as (-> & -> & Hg). now apply IH.
    + subst eb. reflexivity.
Qed.

(** Against C8.  P1 with reliability 0.5, run twice on the same
    arguments: once while the module-level generator yields 0.3 (the order
    of the first day is accepted), once while it yields 0.7 (every order is
    refused).  The caller sees two different results. *)
Lemma same_arguments_counterexample :
  observable (run (Sample.simulator (1 # 2)) Sample.low_draws
                  739342 739350 None None None)
  <> observable (run (Sample.simulator (1 # 2)) Sample.high_draws
                     739342 739350 None None None).
Proof. intros H. vm_compute in H. discriminate. Qed.

(** C8, amended.  The random draws of [what_if_simulator] come from the
    module-level generator of Python's [random], which the simulation does
    not seed and does not receive as an argument.  Two executions on the
    same arguments return the same timeline, metrics and simulator (or
    raise the same exception) whenever that generator yields the same
    draws in both; the first [N] draws decide, [N] being the number of
    days of the range, since a day takes at most one draw. *)
Theorem same_draws_same_run :
  forall self g1 g2 start_date end_date mods hr fs,
    agree (length (date_range start_date end_date)) g1 g2 ->
    observable (run self g1 start_date end_date mods hr fs)
    = observable (run self g2 start_date end_date mods hr fs).
Proof.
  intros self g1 g2 start_date end_date mods hr fs Hagree. unfold run.
  set (selfA := match hr with Some r => _ | None => self end).
  clearbody selfA.
  destruct (match fs with Some sid => _override_supplier selfA sid
                     | None => Ok selfA end) as [selfB|e];
    unfold mbind, result_bind; [|reflexivity].
  destruct (validate_date_range _ _ _) as [[]|e]; [|reflexivity].
  destruct (_init_stock_state selfB start_date) as [selfC|e]; [|reflexivity].
  pose proof (run_loop_agree mods (date_range start_date end_date)
                selfC g1 g2 [] Hagree) as Hloop.
  destruct (run_loop mods selfC g1 _ []) as [[[sa ga] ra]|ea];
    destruct (run_loop mods selfC g2 _ []) as [[[sb gb] rb]|eb];
    simpl in Hloop; try contradiction.
  - destruct Hloop as (-> & -> & _).
    destruct (_compile_results sb rb); reflexivity.
  - subst eb. reflexivity.
Qed.

Lemma same_draws_same_run_witness :
  observable (run (Sample.simulator (1 # 2)) Sample.low_draws
                  739342 739350 None None None)
  = observable (run (Sample.simulator (1 # 2))
                    (mkRng (fun i => if (i <? 12)%nat then 3 # 10 else 7 # 10) 0)
                    739342 739350 None None None).
Proof.
  apply same_draws_same_run.
  intros i Hi. vm_compute in Hi. simpl.
  destruct (Nat.ltb_spec i 12) as [_|Hge]; [reflexivity|].
  exfalso. apply Nat.succ_le_mono in Hi. lia.
Defined.

End Determinism.

(** * Further properties of [what_if_simulator] *)

(** ** The timeline of a run *)

Section Timeline.

Import WhatIf WhatIfSpec WhatIfLaws.

Lemma date_range_lookup start_date end_date i d :
  date_range start_date end_date !! i = Some d -> d = start_date + Z.of_nat i.
Proof.
  unfold date_range. rewrite list_lookup_fmap.
  destruct (seq 0 _ !! i) as [j|] eqn:Hj; simpl; [|discriminate].
  apply lookup_seq in Hj as [-> _]. intros H. injection H as <-. reflexivity.
Qed.

Lemma date_range_length start_date end_date :
  length (date_range start_date end_date)
  = Z.to_nat (end_date - start_date + 1).
Proof. unfold date_range. now rewrite length_map, length_seq. Qed.

Lemma date_range_nonempty start_date end_date :
  date_range start_date end_date <> [] <-> start_date <= end_date.
Proof.
  pose proof (date_range_length start_date end_date) as Hlen.
  split.
  - intros Hne. destruct (date_range start_date end_date); [contradiction|].
    simpl in Hlen. lia.
  - intros Hle Hnil. rewrite Hnil in Hlen. simpl in Hlen. lia.
Qed.

Lemma date_range_In start_date end_date d :
  In d (date_range start_date end_date) <-> start_date <= d <= end_date.
Proof.
  unfold date_range. rewrite in_map_iff. split.
  - intros (i & <- & Hi). apply in_seq in Hi. lia.
  - intros Hd. exists (Z.to_nat (d - start_date)). split; [lia|].
    apply in_seq. lia.
Qed.

Lemma day_step_record mods self g d self' g' r :
  day_step mods self g d = Ok (self', g', r) ->
  rec_date r = d /\ _get_daily_demand self d mods = Ok (rec_demand r).
Proof.
  intros Hstep.
  apply day_step_Ok in Hstep as (demand & Hdem & _ & _ & ->).
  simpl. split; [reflexivity|]. rewrite <- Hdem.
  now apply get_daily_demand_product_data.
Qed.

Lemma run_loop_demands mods days self g acc self' g' recs :
  Forall (fun r => _get_daily_demand self (rec_date r) mods
                   = Ok (rec_demand r)) acc ->
  run_loop mods self g days acc = Ok (self', g', recs) ->
  Forall (fun r => _get_daily_demand self (rec_date r) mods
                   = Ok (rec_demand r)) recs.
Proof.
  intros Hacc Hloop.
  assert (Hinv : product_data self' = product_data self /\
                 Forall (fun r => _get_daily_demand self (rec_date r) mods
                                  = Ok (rec_demand r)) recs);
    [|exact (proj2 Hinv)].
  eapply (run_loop_invariant mods
            (fun s rs => product_data s = product_data self /\
                         Forall (fun r => _get_daily_demand self (rec_date r) mods
                                          = Ok (rec_demand r)) rs));
    [ | | exact Hloop]; [|auto].
  intros s0 g0 d0 acc0 s0' g0' r0 [Hpd Ha] Hd.
  destruct (day_step_record _ _ _ _ _ _ _ Hd) as [Hdate Hdem].
  apply day_step_orders in Hd as (_ & _ & _ & _ & _ & _ & _ & Hpd').
  split; [congruence|].
  apply Forall_app_2; [exact Ha|].
  apply Forall_cons; split; [|constructor].
  rewrite Hdate. rewrite <- Hdem.
  apply get_daily_demand_product_data. congruence.
Qed.

(** X1. A run that returns has written one record per calendar day of
    the range, in order and without gaps, the range is not empty, and the
    demand of each record is the one looked up for its date (the override
    when there is one, the forecast otherwise). *)
Theorem run_timeline_days :
  forall self g start_date end_date mods hr fs out self' g',
    run self g start_date end_date mods hr fs = Ok (out, self', g') ->
    map rec_date (timeline out) = date_range start_date end_date /\
    start_date <= end_date /\
    length (timeline out) = Z.to_nat (end_date - start_date + 1) /\
    (forall i r, timeline out !! i = Some r ->
                 rec_date r = start_date + Z.of_nat i) /\
    Forall (fun r => _get_daily_demand self (rec_date r) mods
                     = Ok (rec_demand r)) (timeline out).
Proof.
  intros self g start_date end_date mods hr fs out self' g' Hrun.
  pose proof (run_Ok_data _ _ _ _ _ _ _ _ _ _ Hrun) as (_ & _ & _ & Hne).
  apply run_Ok in Hrun as (self0 & Henter & Hloop & _).
  destruct (run_loop_records _ _ _ _ _ _ _ _ Hloop) as (new & Hnew & Hdates).
  simpl in Hnew. subst new.
  split; [exact Hdates|].
  split; [now apply date_range_nonempty|].
  split; [rewrite <- date_range_length, <- Hdates; now rewrite length_map|].
  split.
  - intros i r Hi. apply (date_range_lookup start_date end_date).
    rewrite <- Hdates, list_lookup_fmap, Hi. reflexivity.
  - pose proof (run_loop_demands _ _ _ _ _ _ _ _ (Forall_nil_2 _) Hloop) as Hd.
    eapply Forall_impl; [exact Hd|]. intros r Hr. simpl in Hr.
    rewrite <- Hr. apply get_daily_demand_product_data.
    symmetry. exact (enters_product_data _ _ _ _ _ _ Henter).
Qed.

Lemma run_timeline_days_witness :
  exists out self' g',
    run (Sample.simulator (9 # 10)) Sample.low_draws
        739342 739360 None None None = Ok (out, self', g') /\
    map rec_date (timeline out) = date_range 739342 739360 /\
    length (timeline out) = 19%nat.
Proof.
  destruct (run (Sample.simulator (9 # 10)) Sample.low_draws
                739342 739360 None None None)
    as [[[out self'] g']|e] eqn:Heq.
  - exists out, self', g'. split; [reflexivity|].
    destruct (run_timeline_days (Sample.simulator (9 # 10)) Sample.low_draws
                739342 739360 None None None out self' g' Heq)
      as (Hdates & _ & Hlen & _).
    split; [exact Hdates | exact Hlen].
  - vm_compute in Heq. discriminate.
Defined.

End Timeline.

(** ** The balance of a day *)

Section Balance.

Import WhatIf WhatIfSpec WhatIfLaws.

Lemma process_order_arrivals_stock self d :
  current_stock (_process_order_arrivals self d)
  = current_stock self + arrivals (pending_orders (order_mgr self)) d.
Proof.
  unfold _process_order_arrivals, get_pending_orders, arrivals. simpl.
  generalize (current_stock self) as stock.
  induction (pending_orders (order_mgr self)) as [|o orders IH];
    intros stock; simpl; [lia|].
  rewrite IH. destruct (arrival_date o =? d); simpl; lia.
Qed.

(** X2. The stock balance of a day of [what_if_simulator]: what is left
    minus what could not be served equals the stock of the evening before
    plus the arrivals of the day minus the demand; inventory and stockout
    are never both positive; the stock kept for the next day is the
    inventory of the record. *)
Theorem day_stock_balance :
  forall mods self g d self' g' r,
    day_step mods self g d = Ok (self', g', r) ->
    rec_inventory r - rec_stockout r
    = current_stock self + arrivals (pending_orders (order_mgr self)) d
      - rec_demand r /\
    (rec_inventory r = 0 \/ rec_stockout r = 0) /\
    current_stock self' = rec_inventory r.
Proof.
  intros mods self g d self' g' r Hstep.
  apply day_step_Ok in Hstep as (demand & _ & _ & Hself & Hr).
  cbv zeta in Hself.
  pose proof (check_reorder_point_stock
                (fst (_update_inventory (_process_order_arrivals self d) demand))
                g d) as Hstock.
  rewrite update_inventory_stock, process_order_arrivals_stock in Hstock.
  assert (Hinv : current_stock self'
                 = Z.max (current_stock self
                          + arrivals (pending_orders (order_mgr self)) d
                          - demand) 0)
    by (rewrite Hself; simpl; exact Hstock).
  subst r. unfold _record_daily_result.
  cbn [rec_inventory rec_stockout rec_demand].
  rewrite update_inventory_stockout, process_order_arrivals_stock, Hinv. lia.
Qed.

Lemma day_stock_balance_witness :
  exists self' g' r,
    day_step None (with_current_stock (Sample.simulator (9 # 10)) 15)
      Sample.low_draws 739342 = Ok (self', g', r) /\
    rec_inventory r - rec_stockout r = 15 + 0 - 20 /\
    rec_inventory r = 0 /\ rec_stockout r = 5.
Proof.
  destruct (day_step None (with_current_stock (Sample.simulator (9 # 10)) 15)
              Sample.low_draws 739342) as [[[self' g'] r]|e] eqn:Heq.
  - exists self', g', r. split; [reflexivity|].
    destruct (day_stock_balance None _ _ _ _ _ _ Heq) as (Hbal & _ & _).
    assert (Hd : rec_demand r = 20)
      by (vm_compute in Heq; injection Heq as _ _ <-; reflexivity).
    split; [rewrite Hbal, Hd; reflexivity|].
    vm_compute in Heq. injection Heq as _ _ <-. split; reflexivity.
  - vm_compute in Heq. discriminate.
Defined.

End Balance.

(** ** The totals of the cost calculator *)

Section CostTotals.

Import WhatIf WhatIfSpec WhatIfLaws.





End CostTotals.

(** ** Validation of the range and loading of the product *)

Section Loading.

Import WhatIf WhatIfSpec WhatIfLaws.

Lemma list_min_le ds d x :
  list_min ds d <= x <-> d <= x \/ exists y, In y ds /\ y <= x.
Proof.
  unfold list_min. induction ds as [|y ds IH]; simpl.
  - split; [auto|]. intros [H|(y & [] & _)]. exact H.
  - rewrite Z.min_le_iff, IH. split.
    + intros [H|[H|(z & Hz & Hle)]]; eauto.
    + intros [H|(z & [<-|Hz] & Hle)]; eauto.
Qed.

Lemma list_max_ge ds d x :
  x <= list_max ds d <-> x <= d \/ exists y, In y ds /\ x <= y.
Proof.
  unfold list_max. induction ds as [|y ds IH]; simpl.
  - split; [auto|]. intros [H|(y & [] & _)]. exact H.
  - rewrite Z.max_le_iff, IH. split.
    + intros [H|[H|(z & Hz & Hle)]]; eauto.
    + intros [H|(z & [<-|Hz] & Hle)]; eauto.
Qed.

Lemma validate_date_range_Ok_iff fc start_date end_date :
  validate_date_range fc start_date end_date = Ok tt <->
  (exists r, In r fc /\ forecast_date r <= start_date) /\
  (exists r, In r fc /\ end_date <= forecast_date r).
Proof.
  unfold validate_date_range.
  destruct fc as [|r0 fc]; simpl.
  { split; [discriminate|]. intros [(r & [] & _) _]. }
  cbv zeta.
  pose proof (list_min_le (map forecast_date fc) (forecast_date r0) start_date)
    as Hmin.
  pose proof (list_max_ge (map forecast_date fc) (forecast_date r0) end_date)
    as Hmax.
  assert (Hlo : list_min (map forecast_date fc) (forecast_date r0) <= start_date
                <-> exists r, In r (r0 :: fc) /\ forecast_date r <= start_date).
  { rewrite Hmin. split.
    - intros [H|(y & Hy & Hle)]; [exists r0; simpl; auto|].
      apply in_map_iff in Hy as (r & <- & Hr). exists r. simpl; auto.
    - intros (r & [<-|Hr] & Hle); [auto|].
      right. exists (forecast_date r). split; [now apply in_map|exact Hle]. }
  assert (Hhi : end_date <= list_max (map forecast_date fc) (forecast_date r0)
                <-> exists r, In r (r0 :: fc) /\ end_date <= forecast_date r).
  { rewrite Hmax. split.
    - intros [H|(y & Hy & Hle)]; [exists r0; simpl; auto|].
      apply in_map_iff in Hy as (r & <- & Hr). exists r. simpl; auto.
    - intros (r & [<-|Hr] & Hle); [auto|].
      right. exists (forecast_date r). split; [now apply in_map|exact Hle]. }
  simpl In in Hlo, Hhi. rewrite <- Hlo, <- Hhi.
  destruct (Z.ltb_spec start_date (list_min (map forecast_date fc)
                                            (forecast_date r0)));
    destruct (Z.ltb_spec (list_max (map forecast_date fc) (forecast_date r0))
                         end_date); simpl;
    (split; [try discriminate; intros _; lia | intros [? ?]; try reflexivity; lia]).
Qed.

(** X4. [validate_date_range] accepts a range exactly when the forecast
    has a row dated on or before the start and a row dated on or after the
    end; every other case, the empty forecast included, is a
    [ValueError].  Neither the order of start and end nor the days in
    between are looked at. *)
Theorem validate_date_range_accepts :
  forall fc start_date end_date,
    (validate_date_range fc start_date end_date = Ok tt <->
     (exists r, In r fc /\ forecast_date r <= start_date) /\
     (exists r, In r fc /\ end_date <= forecast_date r)) /\
    (forall e, validate_date_range fc start_date end_date = Raise e ->
               e = ValueError).
Proof.
  intros fc start_date end_date.
  split; [apply validate_date_range_Ok_iff|].
  intros e. unfold validate_date_range.
  destruct (map forecast_date fc) as [|d ds]; [intros H; now injection H|].
  cbv zeta. destruct (_ || _); [intros H; now injection H | discriminate].
Qed.

Lemma validate_date_range_accepts_witness :
  validate_date_range Sample.forecast_gap 739350 739343 = Ok tt.
Proof.
  apply (proj1 (validate_date_range_accepts Sample.forecast_gap 739350 739343)).
  split.
  - exists (mkForecastRow 739342 "P1" 20). split; [vm_compute; tauto|simpl; lia].
  - exists (mkForecastRow 739371 "P1" 20). split; [vm_compute; tauto|simpl; lia].
Defined.

Lemma filter_In_eqb {A} (f : A -> bool) (l : list A) x rest :
  List.filter f l = x :: rest -> In x l /\ f x = true.
Proof.
  intros H. apply filter_In. rewrite H. now left.
Qed.

Lemma filter_singleton_unique {A} (f : A -> bool) (l : list A) x :
  List.filter f l = [x] -> forall y, In y l -> f y = true -> y = x.
Proof.
  intros H y Hy Hf.
  assert (Hin : In y (List.filter f l)) by (apply filter_In; auto).
  rewrite H in Hin. destruct Hin as [<-|[]]. reflexivity.
Qed.

Lemma unique_entry_Ok {A} (l : list A) x : unique_entry l = Ok x -> l = [x].
Proof.
  destruct l as [|a [|b l]]; simpl; intros H; try discriminate.
  now injection H as <-.
Qed.

Lemma unique_entry_Raise {A} (l : list A) e :
  unique_entry l = Raise e -> e = ValueError.
Proof.
  destruct l as [|a [|b l]]; simpl; intros H; try discriminate;
    now injection H.
Qed.

(** X5. What [load_product_data] hands over when it succeeds: the one
    policy row of the product; the ledger and forecast rows of the product
    and no others, at least one ledger row; the one supplier row whose id
    is the supplier of the first ledger row of the product.  Whatever goes
    wrong is a [ValueError]. *)
Theorem load_product_data_result :
  forall files pid,
    (forall pd,
        load_product_data files pid = Ok pd ->
        (In (policy pd) (inventory_policy files) /\
         policy_product_id (policy pd) = pid /\
         forall p, In p (inventory_policy files) ->
                   policy_product_id p = pid -> p = policy pd) /\
        (forall r, In r (ledger pd) <->
                   In r (inventory_ledger files) /\ ledger_product_id r = pid) /\
        (forall r, In r (forecast pd) <->
                   In r (clean_forecast files) /\ forecast_product_id r = pid) /\
        (exists row rest,
            ledger pd = row :: rest /\
            supplier_id (supplier pd) = ledger_supplier_id row) /\
        In (supplier pd) (suppliers1 files) /\
        (forall s, In s (suppliers1 files) ->
                   supplier_id s = supplier_id (supplier pd) ->
                   s = supplier pd)) /\
    (forall e, load_product_data files pid = Raise e -> e = ValueError).
Proof.
  intros files pid. unfold load_product_data, _get_product_supplier.
  destruct (unique_entry (List.filter _ (inventory_policy files)))
    as [pol|e0] eqn:Hpol; unfold mbind, result_bind.
  2:{ split; [discriminate|]. intros e H. injection H as <-.
      now apply unique_entry_Raise in Hpol. }
  apply unique_entry_Ok in Hpol.
  destruct (List.filter (fun r => String.eqb (ledger_product_id r) pid)
                        (inventory_ledger files)) as [|row rest] eqn:Hled.
  { split; [discriminate|]. intros e H. now injection H. }
  destruct (unique_entry (List.filter _ (suppliers1 files)))
    as [sup|e0] eqn:Hsup.
  2:{ split; [discriminate|]. intros e H. injection H as <-.
      now apply unique_entry_Raise in Hsup. }
  apply unique_entry_Ok in Hsup.
  split; [|discriminate].
  intros pd H. injection H as <-. cbn [policy ledger forecast supplier].
  destruct (filter_In_eqb _ _ _ _ Hpol) as [Hpin Hpid].
  destruct (filter_In_eqb _ _ _ _ Hsup) as [Hsin Hsid].
  apply String.eqb_eq in Hpid. apply String.eqb_eq in Hsid.
  split; [|split; [|split; [|split; [|split]]]].
  - split; [exact Hpin|]. split; [exact Hpid|].
    intros p Hp Hpp. apply (filter_singleton_unique _ _ _ Hpol); [exact Hp|].
    now apply String.eqb_eq.
  - intros r. rewrite <- Hled, filter_In, String.eqb_eq. reflexivity.
  - intros r. rewrite filter_In, String.eqb_eq. reflexivity.
  - exists row, rest. auto.
  - exact Hsin.
  - intros s Hs Hss. apply (filter_singleton_unique _ _ _ Hsup); [exact Hs|].
    apply String.eqb_eq. congruence.
Qed.

Lemma load_product_data_result_witness :
  exists pd,
    load_product_data (Sample.files 1) "P1" = Ok pd /\
    policy_product_id (policy pd) = "P1"%string /\
    In (supplier pd) (suppliers1 (Sample.files 1)).
Proof.
  exists (product_data (Sample.simulator 1)).
  assert (Heq : load_product_data (Sample.files 1) "P1"
                = Ok (product_data (Sample.simulator 1))) by reflexivity.
  split; [exact Heq|].
  destruct (proj1 (load_product_data_result (Sample.files 1) "P1") _ Heq)
    as ((_ & Hpid & _) & _ & _ & _ & Hsup & _).
  split; [exact Hpid | exact Hsup].
Defined.

End Loading.

(** ** When a run returns, and with which supplier *)

Section RunSucceeds.

Import WhatIf WhatIfSpec WhatIfLaws.

Lemma day_step_manager mods self g d self' g' r :
  day_step mods self g d = Ok (self', g', r) ->
  om_reliability (order_mgr self') = om_reliability (order_mgr self) /\
  loader self' = loader self.
Proof.
  intros Hstep.
  apply day_step_Ok in Hstep as (demand & _ & _ & Hself & _).
  cbv zeta in Hself.
  set (s1 := fst (_update_inventory (_process_order_arrivals self d) demand))
    in *.
  assert (Hs1 : order_mgr s1 = order_mgr self /\ loader s1 = loader self)
    by (split; reflexivity).
  destruct Hs1 as [Hom Hld]. clearbody s1.
  pose proof (check_reorder_point_outcome s1 g d) as Hout.
  remember (fst (_check_reorder_point s1 g d)) as s2 eqn:Hs2. clear Hs2.
  subst self'. simpl.
  inversion Hout as [Ha Hs Hb | Ha Hb Hc Hs Hd | Ha Hb Hc Hs Hd];
    try rewrite <- Hs; simpl; rewrite ?Hom, ?Hld; auto.
Qed.

Lemma get_daily_demand_Ok_iff self mods d :
  (exists q, _get_daily_demand self d mods = Ok q) <-> has_demand self mods d.
Proof.
  unfold _get_daily_demand, has_demand.
  destruct (mods ≫= (fun m => m !! d)) as [q|].
  - split; [intros _; left; eauto | intros _; eauto].
  - destruct (List.filter (fun r => forecast_date r =? d)
                          (forecast (product_data self))) as [|row rest] eqn:Hf.
    + split; [intros [q Hq]; discriminate|].
      intros [[q Hq]|(r & Hr & Hd)]; [discriminate|].
      assert (Hin : In r (List.filter (fun r => forecast_date r =? d)
                                      (forecast (product_data self))))
        by (apply filter_In; split; [exact Hr | now apply Z.eqb_eq]).
      rewrite Hf in Hin. destruct Hin.
    + split; [intros _; right | intros _; eauto].
      destruct (filter_In_eqb _ _ _ _ Hf) as [Hin Heq].
      apply Z.eqb_eq in Heq. eauto.
Qed.

Lemma has_demand_product_data s1 s2 mods d :
  product_data s1 = product_data s2 ->
  has_demand s1 mods d -> has_demand s2 mods d.
Proof. unfold has_demand. intros ->. auto. Qed.

Lemma day_step_total mods self g d :
  has_demand self mods d ->
  exists self' g' r, day_step mods self g d = Ok (self', g', r).
Proof.
  intros Hd. apply get_daily_demand_Ok_iff in Hd as [q Hq].
  unfold day_step.
  rewrite (get_daily_demand_product_data (_process_order_arrivals self d) self)
    by reflexivity.
  rewrite Hq. unfold mbind, result_bind.
  destruct (_update_inventory _ q) as [s1 stockout].
  destruct (_check_reorder_point s1 g d) as [s2 g2]. eauto.
Qed.

Lemma run_loop_total mods days :
  forall self g acc,
    (forall d, In d days -> has_demand self mods d) ->
    exists self' g' recs,
      run_loop mods self g days acc = Ok (self', g', recs) /\
      length recs = (length acc + length days)%nat.
Proof.
  induction days as [|d days IH]; intros self g acc Hall.
  - exists self, g, acc. simpl. split; [reflexivity|lia].
  - destruct (day_step_total mods self g d (Hall d (or_introl eq_refl)))
      as (s1 & g1 & r1 & Hd).
    simpl. rewrite Hd. unfold mbind, result_bind.
    destruct (IH s1 g1 (acc ++ [r1])) as (s' & g' & recs & Hloop & Hlen).
    + intros d' Hin.
      apply (has_demand_product_data self); [|apply Hall; now right].
      apply day_step_orders in Hd as (_ & _ & _ & _ & _ & _ & _ & Hpd).
      now rewrite Hpd.
    + exists s', g', recs. split; [exact Hloop|].
      rewrite Hlen, length_app. simpl. lia.
Qed.

Lemma filter_nonempty_iff {A} (f : A -> bool) (l : list A) :
  List.filter f l <> [] <-> exists x, In x l /\ f x = true.
Proof.
  split.
  - destruct (List.filter f l) as [|x rest] eqn:Hf; [contradiction|].
    intros _. exists x. exact (filter_In_eqb _ _ _ _ Hf).
  - intros (x & Hx & Hfx) Hnil.
    assert (Hin : In x (List.filter f l)) by (apply filter_In; auto).
    rewrite Hnil in Hin. destruct Hin.
Qed.

(** The state in which the loop of [run] starts, with the order manager
    it starts with. *)
Lemma run_Ok_manager self g start_date end_date mods hr fs out self' g' :
  run self g start_date end_date mods hr fs = Ok (out, self', g') ->
  exists om0,
    match fs with
    | Some sid =>
        exists row rest,
          List.filter (fun r => String.eqb (supplier_id r) sid)
                      (suppliers1 (loader self)) = row :: rest /\
          om0 = OrderManager_init row None
    | None => om0 = order_mgr self
    end /\
    om_lead_time (order_mgr self') = om_lead_time om0 /\
    om_moq (order_mgr self') = om_moq om0 /\
    om_reliability (order_mgr self') = om_reliability om0 /\
    order_cost (cost_calc self') = order_cost (cost_calc self) /\
    sim_eoq self' = sim_eoq self /\
    rop self' = rop self /\
    product_data self' = product_data self.
Proof.
  unfold run.
  set (selfA := match hr with Some r => _ | None => self end).
  assert (HA : product_data selfA = product_data self /\
               rop selfA = rop self /\ sim_eoq selfA = sim_eoq self /\
               order_mgr selfA = order_mgr self /\
               loader selfA = loader self /\
               order_cost (cost_calc selfA) = order_cost (cost_calc self)).
  { subst selfA. destruct hr; simpl; auto 10. }
  destruct HA as (Hpd & Hrop & Heoq & Hom & Hld & Hoc).
  clearbody selfA.
  destruct (match fs with Some sid => _override_supplier selfA sid
                     | None => Ok selfA end) as [selfB|e] eqn:HB;
    unfold mbind, result_bind; [|discriminate].
  destruct (validate_date_range _ _ _) as [[]|e]; [|discriminate].
  destruct (_init_stock_state selfB start_date) as [selfC|e] eqn:HC;
    [|discriminate].
  destruct (run_loop mods selfC g _ []) as [[[selfD gD] results]|e] eqn:HL;
    [|discriminate].
  destruct (_compile_results selfD results) as [out'|e]; [|discriminate].
  intros H. injection H as _ <- _.
  assert (HCfields : order_mgr selfC = order_mgr selfB /\
                     cost_calc selfC = cost_calc selfB /\
                     sim_eoq selfC = sim_eoq selfB /\ rop selfC = rop selfB /\
                     product_data selfC = product_data selfB).
  { unfold _init_stock_state in HC.
    destruct (List.filter _ (ledger (product_data selfB))); [discriminate|].
    injection HC as <-. simpl. auto. }
  destruct HCfields as (HomC & HccC & HeoqC & HropC & HpdC).
  assert (Hinv : om_lead_time (order_mgr selfD) = om_lead_time (order_mgr selfC) /\
                 om_moq (order_mgr selfD) = om_moq (order_mgr selfC) /\
                 om_reliability (order_mgr selfD)
                 = om_reliability (order_mgr selfC) /\
                 order_cost (cost_calc selfD) = order_cost (cost_calc selfC) /\
                 sim_eoq selfD = sim_eoq selfC /\ rop selfD = rop selfC /\
                 product_data selfD = product_data selfC).
  { eapply (run_loop_invariant mods
      (fun s _ =>
         om_lead_time (order_mgr s) = om_lead_time (order_mgr selfC) /\
         om_moq (order_mgr s) = om_moq (order_mgr selfC) /\
         om_reliability (order_mgr s) = om_reliability (order_mgr selfC) /\
         order_cost (cost_calc s) = order_cost (cost_calc selfC) /\
         sim_eoq s = sim_eoq selfC /\ rop s = rop selfC /\
         product_data s = product_data selfC));
      [ | | exact HL]; [|auto 10].
    intros s0 g0 d0 acc0 s0' g0' r0 (H1 & H2 & H3 & H4 & H5 & H6 & H7) Hd.
    destruct (day_step_manager _ _ _ _ _ _ _ Hd) as [Hrel _].
    apply day_step_orders in Hd
      as (_ & _ & Hoc' & Hlt' & Hmoq' & Heoq' & Hrop' & Hpd').
    repeat split; congruence. }
  destruct Hinv as (H1 & H2 & H3 & H4 & H5 & H6 & H7).
  destruct fs as [sid|].
  - unfold _override_supplier in HB. rewrite Hld in HB.
    destruct (List.filter _ (load_all_suppliers (loader self)))
      as [|row rest] eqn:Hrow; [discriminate|].
    injection HB as <-. simpl in *.
    exists (OrderManager_init row None).
    split; [exists row, rest; auto|].
    repeat split; congruence.
  - injection HB as <-. exists (order_mgr self).
    split; [reflexivity|]. repeat split; congruence.
Qed.


Example sample2_simulator_init :
  InventorySimulator_init Sample2.files "P1" None None = Ok Sample2.simulator.
Proof. reflexivity. Qed.


Lemma run_data_ok_iff self g start_date end_date mods hr fs :
  (exists res, run self g start_date end_date mods hr fs = Ok res) <->
  run_data_ok self start_date end_date mods fs.
Proof.
  split.
  - intros [[[out self'] g'] Hrun].
    pose proof (run_Ok_data _ _ _ _ _ _ _ _ _ _ Hrun) as (Hv & Hl & Hd & Hne).
    pose proof (run_Ok_manager _ _ _ _ _ _ _ _ _ _ Hrun) as (om0 & Hfs & _).
    apply validate_date_range_Ok_iff in Hv as [Hlo Hhi].
    unfold run_data_ok.
    split.
    { destruct fs as [sid|]; [|exact I].
      destruct Hfs as (row & rest & Hrow & _).
      destruct (filter_In_eqb _ _ _ _ Hrow) as [Hin Hid].
      apply String.eqb_eq in Hid. eauto. }
    split; [exact Hlo|]. split; [exact Hhi|].
    split.
    { apply filter_nonempty_iff in Hl as (r & Hr & Heq).
      apply Z.eqb_eq in Heq. eauto. }
    split; [now apply date_range_nonempty|].
    intros d Hd'. apply get_daily_demand_Ok_iff. apply Hd.
    now apply date_range_In.
  - intros (Hfs & Hlo & Hhi & (lr & Hlr & Hldate) & Hle & Hdem).
    unfold run.
    set (selfA := match hr with Some r => _ | None => self end).
    assert (HA : product_data selfA = product_data self /\
                 loader selfA = loader self)
      by (subst selfA; destruct hr; simpl; auto).
    destruct HA as (Hpd & Hld). clearbody selfA.
    assert (HB : exists selfB,
               match fs with Some sid => _override_supplier selfA sid
                        | None => Ok selfA end = Ok selfB /\
               product_data selfB = product_data self).
    { destruct fs as [sid|]; [|eauto].
      destruct Hfs as (row & Hrow & Hid).
      unfold _override_supplier, load_all_suppliers. rewrite Hld.
      destruct (List.filter _ (suppliers1 (loader self)))
        as [|row' rest] eqn:Hf.
      - exfalso. revert Hf. apply filter_nonempty_iff.
        exists row. split; [exact Hrow | now apply String.eqb_eq].
      - eexists. split; [reflexivity|]. exact Hpd. }
    destruct HB as (selfB & -> & HpdB). unfold mbind, result_bind.
    rewrite HpdB.
    rewrite (proj2 (validate_date_range_Ok_iff _ _ _) (conj Hlo Hhi)).
    unfold _init_stock_state. rewrite HpdB.
    destruct (List.filter (fun r => ledger_date r =? start_date)
                          (ledger (product_data self)))
      as [|row rest] eqn:Hf.
    { exfalso. revert Hf. apply filter_nonempty_iff.
      exists lr. split; [exact Hlr | now apply Z.eqb_eq]. }
    destruct (run_loop_total mods (date_range start_date end_date)
                (with_current_stock selfB (opening_stock row)) g [])
      as (s' & g' & recs & Hloop & Hlen).
    { intros d Hd. apply (has_demand_product_data self); [now rewrite <- HpdB|].
      apply Hdem. now apply date_range_In. }
    rewrite Hloop. unfold _compile_results.
    destruct recs as [|r recs].
    { exfalso. simpl in Hlen. rewrite date_range_length in Hlen. lia. }
    eauto.
Qed.

(** X7. Whether [run] returns a result is settled by the data alone: it
    returns exactly when the forced supplier (if any) exists, the forecast
    has a row on or before the start and one on or after the end, the
    ledger has a row for the start date, the start is not after the end,
    and every date of the range has an override or a forecast row.  In
    particular the random draws never turn a failing run into a successful
    one or back. *)
Theorem run_returns_iff :
  forall self start_date end_date mods hr fs,
    (forall g,
        (exists res, run self g start_date end_date mods hr fs = Ok res) <->
        run_data_ok self start_date end_date mods fs) /\
    (forall g1 g2,
        is_Ok (run self g1 start_date end_date mods hr fs)
        = is_Ok (run self g2 start_date end_date mods hr fs)).
Proof.
  intros self start_date end_date mods hr fs.
  split; [intros g; apply run_data_ok_iff|].
  intros g1 g2.
  destruct (run self g1 start_date end_date mods hr fs) as [res1|e1] eqn:H1;
    destruct (run self g2 start_date end_date mods hr fs) as [res2|e2] eqn:H2;
    try reflexivity; exfalso.
  - assert (Hok : exists res, run self g2 start_date end_date mods hr fs = Ok res)
      by (apply (proj2 (run_data_ok_iff self g2 start_date end_date mods hr fs));
          apply (proj1 (run_data_ok_iff self g1 start_date end_date mods hr fs));
          eauto).
    destruct Hok as [res Hres]. congruence.
  - assert (Hok : exists res, run self g1 start_date end_date mods hr fs = Ok res)
      by (apply (proj2 (run_data_ok_iff self g1 start_date end_date mods hr fs));
          apply (proj1 (run_data_ok_iff self g2 start_date end_date mods hr fs));
          eauto).
    destruct Hok as [res Hres]. congruence.
Qed.

Lemma run_returns_iff_witness :
  exists res,
    run (Sample.simulator (1 # 2)) Sample.high_draws
        739342 739350 (Some {[739344 := 7]}) None None = Ok res.
Proof.
  apply (proj1 (run_returns_iff (Sample.simulator (1 # 2)) 739342 739350
                  (Some {[739344 := 7]}) None None)).
  unfold run_data_ok. split; [exact I|].
  split; [exists (mkForecastRow 739342 "P1" 20); split;
          [vm_compute; tauto | simpl; lia]|].
  split; [exists (mkForecastRow 739371 "P1" 20); split;
          [vm_compute; tauto | simpl; lia]|].
  split; [exists (mkLedgerRow 739342 "P1" 60 "S1"); split;
          [vm_compute; tauto | reflexivity]|].
  split; [lia|].
  intros d Hd. right. exists (mkForecastRow d "P1" 20).
  split; [|reflexivity].
  change (forecast (product_data (Sample.simulator (1 # 2))))
    with (map (fun d => mkForecastRow d "P1" 20) (date_range 739342 739371)).
  apply (in_map (fun d => mkForecastRow d "P1" 20)).
  apply date_range_In. lia.
Defined.

End RunSucceeds.

(** ** A supplier that never refuses *)

Section Reliable.

Import WhatIf WhatIfSpec WhatIfLaws.







End Reliable.

(** ** [run_simulation] and [compare_scenarios] *)

Section Simulation.

Import WhatIf WhatIfSpec WhatIfLaws Scenarios.






End Simulation.

Section Compare.

Import WhatIf WhatIfSpec WhatIfLaws Scenarios.

Variables (files : DataLoader) (pid : string) (start_date end_date : date).

Lemma run_is_Ok_generator self g1 g2 mods hr fs :
  is_Ok (run self g1 start_date end_date mods hr fs)
  = is_Ok (run self g2 start_date end_date mods hr fs).
Proof.
  destruct (run self g1 start_date end_date mods hr fs) as [res1|e1] eqn:H1;
    destruct (run self g2 start_date end_date mods hr fs) as [res2|e2] eqn:H2;
    try reflexivity; exfalso.
  - destruct (proj2 (run_data_ok_iff self g2 start_date end_date mods hr fs)
                (proj1 (run_data_ok_iff self g1 start_date end_date mods hr fs)
                   (ex_intro _ res1 H1))) as [res Hres].
    congruence.
  - destruct (proj2 (run_data_ok_iff self g1 start_date end_date mods hr fs)
                (proj1 (run_data_ok_iff self g2 start_date end_date mods hr fs)
                   (ex_intro _ res2 H2))) as [res Hres].
    congruence.
Qed.

Lemma run_scenario_is_Ok_generator g1 g2 sc :
  is_Ok (run_scenario files g1 pid start_date end_date sc)
  = is_Ok (run_scenario files g2 pid start_date end_date sc).
Proof.
  unfold run_scenario, run_simulation.
  destruct (InventorySimulator_init files pid None None) as [sim0|e];
    unfold mbind, result_bind; [|reflexivity].
  pose proof (run_is_Ok_generator sim0 g1 g2
                (Some (default ∅ (scenario_demand_mods sc)))
                (Some (default (1 # 5)%Q (scenario_holding_rate sc)))
                (scenario_force_supplier_id sc)) as H.
  destruct (run sim0 g1 _ _ _ _ _) as [[[r1 s1] h1]|e1];
    destruct (run sim0 g2 _ _ _ _ _) as [[[r2 s2] h2]|e2];
    simpl in H; try discriminate; reflexivity.
Qed.

Lemma is_Ok_true {A} (r : result A) : is_Ok r = true <-> exists a, r = Ok a.
Proof.
  destruct r as [a|e]; simpl; split; eauto; try discriminate.
  intros [a H]. discriminate.
Qed.

Lemma compare_loop_cons sc rest g results :
  compare_loop files pid start_date end_date (sc :: rest) g results =
  match run_scenario files g pid start_date end_date sc with
  | Ok (output, _, g') =>
      compare_loop files pid start_date end_date rest g'
                   (<[name_of sc := metrics output]> results)
  | Raise e => Raise e
  end.
Proof.
  simpl. destruct (run_scenario files g pid start_date end_date sc)
    as [[[output orders] g']|e]; reflexivity.
Qed.

Lemma compare_loop_app l1 :
  forall l2 g results,
    compare_loop files pid start_date end_date (l1 ++ l2) g results =
    match compare_loop files pid start_date end_date l1 g results with
    | Ok (res, g') => compare_loop files pid start_date end_date l2 g' res
    | Raise e => Raise e
    end.
Proof.
  induction l1 as [|sc l1 IH]; intros l2 g results; [reflexivity|].
  rewrite <- app_comm_cons, !compare_loop_cons.
  destruct (run_scenario files g pid start_date end_date sc)
    as [[[output orders] g']|e]; [apply IH|reflexivity].
Qed.

Lemma compare_loop_Ok scenarios :
  forall g results res g',
    compare_loop files pid start_date end_date scenarios g results
      = Ok (res, g') ->
    dom res = dom results ∪ list_to_set (map name_of scenarios) /\
    (size res <= size results + length scenarios)%nat /\
    (forall name m,
        res !! name = Some m ->
        results !! name = Some m \/
        exists sc g0 output orders g1,
          In sc scenarios /\ name_of sc = name /\
          run_scenario files g0 pid start_date end_date sc
            = Ok (output, orders, g1) /\
          metrics output = m).
Proof.
  induction scenarios as [|sc rest IH]; intros g results res g' Hloop.
  - simpl in Hloop. injection Hloop as <- <-. simpl.
    split; [now rewrite (right_id_L ∅ (∪))|]. split; [lia|]. auto.
  - rewrite compare_loop_cons in Hloop.
    destruct (run_scenario files g pid start_date end_date sc)
      as [[[output orders] g1]|e] eqn:Hrun; [|discriminate].
    destruct (IH _ _ _ _ Hloop) as (Hdom & Hsize & Hval).
    split; [|split].
    + rewrite Hdom, dom_insert_L. simpl.
      rewrite (comm_L (∪) {[name_of sc]} (dom results)).
      now rewrite (assoc_L (∪)).
    + simpl.
      assert (Hins : (size (<[name_of sc := metrics output]> results)
                      <= S (size results))%nat).
      { rewrite map_size_insert.
        destruct (results !! name_of sc); simpl; lia. }
      lia.
    + intros name m Hres.
      destruct (Hval name m Hres) as [Hold|(sc' & g0 & o & os & g2 & Hin & H)].
      * destruct (decide (name_of sc = name)) as [Heq|Hne].
        -- rewrite <- Heq, lookup_insert_eq in Hold. injection Hold as <-.
           right. exists sc, g, output, orders, g1. simpl. auto.
        -- rewrite lookup_insert_ne in Hold by exact Hne. now left.
      * right. exists sc', g0, o, os, g2. simpl. tauto.
Qed.

Lemma compare_loop_returns_iff scenarios :
  forall g results,
    (exists r, compare_loop files pid start_date end_date scenarios g results
               = Ok r) <->
    Forall (fun sc => exists r, run_scenario files g pid start_date end_date sc
                                = Ok r) scenarios.
Proof.
  induction scenarios as [|sc rest IH]; intros g results.
  - simpl. split; [constructor | eauto].
  - rewrite compare_loop_cons, Forall_cons. split.
    + destruct (run_scenario files g pid start_date end_date sc)
        as [[[output orders] g1]|e] eqn:Hrun; [|intros [r Hr]; discriminate].
      intros Hrest. split; [eauto|].
      apply IH in Hrest.
      eapply Forall_impl; [exact Hrest|]. intros sc' Hsc'.
      apply is_Ok_true. rewrite (run_scenario_is_Ok_generator g g1).
      now apply is_Ok_true.
    + intros [[[[output orders] g1] Hrun] Hrest]. rewrite Hrun.
      apply IH.
      eapply Forall_impl; [exact Hrest|]. intros sc' Hsc'.
      apply is_Ok_true. rewrite (run_scenario_is_Ok_generator g1 g).
      now apply is_Ok_true.
Qed.

End Compare.

Section CompareTheorem.

Import WhatIf WhatIfSpec WhatIfLaws Scenarios.

(** X10. [compare_scenarios] returns a mapping exactly when every
    scenario, run on its own, returns a result; one failing scenario makes
    the whole comparison raise, with no metrics for the others.  The
    mapping has one entry per scenario name (a scenario without a name is
    "Unnamed Scenario"), so at most as many entries as scenarios, and each
    entry holds the metrics of a run of a scenario of that name.  The
    scenarios are run in order on one generator: comparing a list with one
    more scenario at the end is comparing the list, then running that
    scenario from the generator state the others left, and storing its
    metrics under its name over any earlier entry. *)
Theorem compare_scenarios_result :
  forall files g pid scenarios start_date end_date,
    ((exists r, compare_scenarios files g pid scenarios start_date end_date
                = Ok r) <->
     Forall (fun sc => exists r,
                 run_scenario files g pid start_date end_date sc = Ok r)
            scenarios) /\
    (forall res g',
        compare_scenarios files g pid scenarios start_date end_date
          = Ok (res, g') ->
        dom res = list_to_set (map name_of scenarios) /\
        (size res <= length scenarios)%nat /\
        forall name m,
          res !! name = Some m ->
          exists sc g0 output orders g1,
            In sc scenarios /\ name_of sc = name /\
            run_scenario files g0 pid start_date end_date sc
              = Ok (output, orders, g1) /\
            metrics output = m) /\
    (forall sc,
        compare_scenarios files g pid (scenarios ++ [sc]) start_date end_date =
        match compare_scenarios files g pid scenarios start_date end_date with
        | Ok (res, g0) =>
            match run_scenario files g0 pid start_date end_date sc with
            | Ok (output, _, g1) =>
                Ok (<[name_of sc := metrics output]> res, g1)
            | Raise e => Raise e
            end
        | Raise e => Raise e
        end).
Proof.
  intros files g pid scenarios start_date end_date.
  unfold compare_scenarios. split; [apply compare_loop_returns_iff|].
  split.
  - intros res g' Hcmp.
    destruct (compare_loop_Ok _ _ _ _ _ _ _ _ _ Hcmp) as (Hdom & Hsize & Hval).
    split; [rewrite Hdom, dom_empty_L; now rewrite (left_id_L ∅ (∪))|].
    split; [rewrite map_size_empty in Hsize; lia|].
    intros name m Hres.
    destruct (Hval name m Hres) as [Hold|H]; [|exact H].
    rewrite lookup_empty in Hold. discriminate.
  - intros sc. rewrite compare_loop_app.
    destruct (compare_loop files pid start_date end_date scenarios g ∅)
      as [[res g0]|e]; [|reflexivity].
    rewrite compare_loop_cons.
    destruct (run_scenario files g0 pid start_date end_date sc)
      as [[[output orders] g1]|e]; reflexivity.
Qed.

Lemma compare_scenarios_result_witness :
  (exists r,
      compare_scenarios (Sample.files 1) Sample.low_draws "P1"
        [SampleScenarios.baseline; SampleScenarios.costly;
         SampleScenarios.unnamed] 739342 739350 = Ok r) /\
  (exists res g',
      compare_scenarios (Sample.files 1) Sample.low_draws "P1"
        [SampleScenarios.baseline; SampleScenarios.costly;
         SampleScenarios.unnamed] 739342 739350 = Ok (res, g') /\
      dom res = {["Baseline"%string; "Costly"%string;
                  "Unnamed Scenario"%string]}).
Proof.
  destruct (compare_scenarios_result (Sample.files 1) Sample.low_draws "P1"
              [SampleScenarios.baseline; SampleScenarios.costly;
               SampleScenarios.unnamed] 739342 739350) as (Hiff & Hres & _).
  assert (Hok : exists r,
             compare_scenarios (Sample.files 1) Sample.low_draws "P1"
               [SampleScenarios.baseline; SampleScenarios.costly;
                SampleScenarios.unnamed] 739342 739350 = Ok r).
  { apply Hiff. repeat (apply Forall_cons; split); try constructor.
    - destruct (run_scenario (Sample.files 1) Sample.low_draws "P1"
                  739342 739350 SampleScenarios.baseline) as [r|e] eqn:Heq;
        [eauto|vm_compute in Heq; discriminate].
    - destruct (run_scenario (Sample.files 1) Sample.low_draws "P1"
                  739342 739350 SampleScenarios.costly) as [r|e] eqn:Heq;
        [eauto|vm_compute in Heq; discriminate].
    - destruct (run_scenario (Sample.files 1) Sample.low_draws "P1"
                  739342 739350 SampleScenarios.unnamed) as [r|e] eqn:Heq;
        [eauto|vm_compute in Heq; discriminate]. }
  split; [exact Hok|].
  destruct Hok as [[res g'] Hr]. exists res, g'. split; [exact Hr|].
  destruct (Hres res g' Hr) as (Hdom & _). rewrite Hdom. simpl.
  rewrite (right_id_L ∅ (∪)). now rewrite !(assoc_L (∪)).
Defined.

End CompareTheorem.

(** ** The orders a run leaves behind *)

Section OrdersOfRun.

Import WhatIf WhatIfSpec WhatIfLaws.

Lemma day_step_new_order mods self g d self' g' r :
  day_step mods self g d = Ok (self', g', r) ->
  pending_orders (order_mgr self') <> pending_orders (order_mgr self) ->
  rec_inventory r <= rop self /\ rec_date r = d.
Proof.
  intros Hstep Hchanged.
  destruct (day_step_record _ _ _ _ _ _ _ Hstep) as [Hdate _].
  split; [|exact Hdate].
  apply day_step_Ok in Hstep as (demand & _ & _ & Hself & Hr).
  cbv zeta in Hself.
  set (s1 := fst (_update_inventory (_process_order_arrivals self d) demand))
    in *.
  assert (Hs1 : order_mgr s1 = order_mgr self /\ rop s1 = rop self)
    by (split; reflexivity).
  destruct Hs1 as [Hom Hrop].
  pose proof (check_reorder_point_stock s1 g d) as Hstock.
  pose proof (check_reorder_point_outcome s1 g d) as Hout.
  clearbody s1.
  remember (fst (_check_reorder_point s1 g d)) as s2 eqn:Hs2. clear Hs2.
  assert (Hinv : rec_inventory r = current_stock s1)
    by (rewrite Hr, Hself; simpl; exact Hstock).
  assert (Hp : pending_orders (order_mgr self') = pending_orders (order_mgr s2))
    by (rewrite Hself; reflexivity).
  rewrite Hinv, <- Hrop.
  inversion Hout as [Ha Hs Hb | Ha Hb Hc Hs Hd | Ha Hb Hc Hs Hd].
  - exfalso. apply Hchanged. rewrite Hp, <- Hs, Hom. reflexivity.
  - exfalso. apply Hchanged. rewrite Hp, <- Hs, Hom. reflexivity.
  - exact Ha.
Qed.

Lemma order_of_run_more self recs r o :
  order_of_run self recs o -> order_of_run self (recs ++ [r]) o.
Proof.
  intros (Hq & Hst & r0 & Hin & Hinv & Harr).
  split; [exact Hq|]. split; [exact Hst|].
  exists r0. split; [apply in_or_app; now left|]. auto.
Qed.

Lemma order_of_run_fields s1 s2 recs o :
  sim_eoq s1 = sim_eoq s2 -> rop s1 = rop s2 ->
  om_moq (order_mgr s1) = om_moq (order_mgr s2) ->
  om_lead_time (order_mgr s1) = om_lead_time (order_mgr s2) ->
  order_of_run s2 recs o -> order_of_run s1 recs o.
Proof. unfold order_of_run. intros -> -> -> ->. auto. Qed.

Lemma run_loop_orders mods days self g self' g' recs :
  pending_orders (order_mgr self) = [] ->
  run_loop mods self g days [] = Ok (self', g', recs) ->
  Forall (order_of_run self' recs) (pending_orders (order_mgr self')).
Proof.
  intros Hempty Hloop.
  eapply (run_loop_invariant mods
            (fun s rs => Forall (order_of_run s rs) (pending_orders (order_mgr s))));
    [ | | exact Hloop]; [|rewrite Hempty; constructor].
  intros s0 g0 d0 acc0 s0' g0' r0 HI Hd.
  pose proof (day_step_orders _ _ _ _ _ _ _ Hd)
    as (Horders & _ & _ & Hlt & Hmoq & Heoq & Hrop & _).
  destruct Horders as [Hsame _ _ | Hnil Hnew _].
  - rewrite Hsame.
    eapply Forall_impl; [exact HI|]. intros o Ho.
    apply order_of_run_more.
    now apply (order_of_run_fields s0' s0).
  - destruct (day_step_new_order _ _ _ _ _ _ _ Hd) as [Hinv Hdate];
      [rewrite Hnew, Hnil; discriminate|].
    rewrite Hnew. apply Forall_cons. split; [|constructor].
    unfold order_of_run. simpl. rewrite Heoq, Hmoq, Hlt, Hrop.
    split; [reflexivity|]. split; [reflexivity|].
    exists r0. split; [apply in_or_app; right; now left|].
    rewrite Hdate. auto.
Qed.

(** X11. The orders that a run returns, when the simulator came with an
    empty list: each has quantity max(eoq, MOQ), hence at least the EOQ
    and at least the MOQ; each was placed on a day of the range whose
    closing inventory was at or below [reorder_point + safety_stock]
    ([rop]), and is due [lead_time] business days after that day; each
    still has the status "pending", also when its arrival date is
    past. *)
Theorem run_orders :
  forall self g start_date end_date mods hr fs out self' g',
    pending_orders (order_mgr self) = [] ->
    run self g start_date end_date mods hr fs = Ok (out, self', g') ->
    Forall (fun o =>
              order_of_run self' (timeline out) o /\
              sim_eoq self' <= quantity o /\
              om_moq (order_mgr self') <= quantity o)
           (pending_orders (order_mgr self')) /\
    Forall (fun r => start_date <= rec_date r <= end_date) (timeline out).
Proof.
  intros self g start_date end_date mods hr fs out self' g' Hempty Hrun.
  apply run_Ok in Hrun as (self0 & Henter & Hloop & _).
  pose proof (enters_orders _ _ _ _ _ _ Henter) as Ho.
  assert (Hp0 : pending_orders (order_mgr self0) = [])
    by (destruct fs; [exact Ho | now rewrite Ho]).
  split.
  - eapply Forall_impl; [exact (run_loop_orders _ _ _ _ _ _ _ Hp0 Hloop)|].
    intros o Ho'. split; [exact Ho'|].
    destruct Ho' as (Hq & _). rewrite Hq. lia.
  - destruct (run_loop_records _ _ _ _ _ _ _ _ Hloop) as (new & Hnew & Hdates).
    simpl in Hnew. subst new.
    apply Forall_forall. intros r Hr.
    apply date_range_In. rewrite <- Hdates.
    apply in_map. now apply list_elem_of_In.
Qed.

Lemma run_orders_witness :
  exists out self' g',
    run (Sample.simulator (9 # 10)) Sample.low_draws
        739342 739360 None None None = Ok (out, self', g') /\
    Forall (fun o => 200 <= quantity o /\ status o = "pending"%string)
           (pending_orders (order_mgr self')).
Proof.
  destruct (run (Sample.simulator (9 # 10)) Sample.low_draws
                739342 739360 None None None)
    as [[[out self'] g']|e] eqn:Heq.
  - exists out, self', g'. split; [reflexivity|].
    destruct (run_orders (Sample.simulator (9 # 10)) Sample.low_draws
                739342 739360 None None None out self' g' eq_refl Heq)
      as [Hall _].
    assert (Heoq : sim_eoq self' = 200)
      by (vm_compute in Heq; injection Heq as _ <- _; reflexivity).
    eapply Forall_impl; [exact Hall|].
    intros o ((_ & Hst & _) & Hq & _). rewrite Heoq in Hq. auto.
  - vm_compute in Heq. discriminate.
Defined.

End OrdersOfRun.

(** * Further properties of the dashboard *)

(** ** Suppliers as the dashboard loads them *)

Section PostProcess.

Import Dashboard DashboardSpec DashboardData DashboardLaws.



Lemma Qle_bool_false x y : Qle_bool x y = false -> (y < x)%Q.
Proof.
  intros H. apply Qnot_le_lt. intros Hle.
  apply Qle_bool_iff in Hle. congruence.
Qed.






End PostProcess.

(** ** The frame of [simulate_product] *)

Section DashboardFrame.

Import Dashboard DashboardSpec DashboardData DashboardLaws.

Variable policy : Policy.
Variable supplier : Supplier.
Variable fc : list ForecastRow.

Let q := Z.max (eoq policy) (MOQ supplier).

Lemma dashboard_day_step_row st d :
  exists e,
    ledger (day_step policy supplier fc st d) = ledger st ++ [e] /\
    entry_date e = d /\
    entry_opening_stock e
    = current_stock st + arrived_on (pending_orders st) d /\
    entry_closing_stock e = current_stock (day_step policy supplier fc st d) /\
    row_ok policy supplier e.
Proof.
  unfold day_step, transactions. cbv zeta.
  eexists. split; [reflexivity|]. cbn [entry_date entry_opening_stock
    entry_closing_stock current_stock].
  split; [reflexivity|]. split; [reflexivity|]. split; [reflexivity|].
  unfold row_ok. cbn [entry_sold entry_unmet_demand entry_demand
    entry_closing_stock entry_opening_stock entry_supplier entry_holding_cost
    entry_restock_qty entry_ordering_cost].
  repeat (split; [try reflexivity; lia|]).
  split; [|reflexivity].
  destruct (_ <? reorder_point policy) eqn:Hlow; [|now left].
  destruct (is_empty _); [|now left].
  right. split; [reflexivity|]. now apply Z.ltb_lt.
Qed.

Lemma arrived_on_one_order pending d :
  one_order_of q pending ->
  arrived_on pending d = 0 \/ arrived_on pending d = q.
Proof.
  intros [-> | [a ->]]; [now left|].
  unfold arrived_on. simpl. destruct (a =? d); simpl; [right; lia | now left].
Qed.

Lemma dashboard_day_step_one_order st d :
  one_order_of q (pending_orders st) ->
  one_order_of q (pending_orders (day_step policy supplier fc st d)).
Proof.
  intros Hone. rewrite dashboard_day_step_pending. unfold dashboard_places.
  assert (Hstill : one_order_of q (still_pending (pending_orders st) d)).
  { destruct Hone as [-> | [a ->]]; [now left|].
    unfold still_pending. simpl.
    destruct (d <? a); [right; now exists a | now left]. }
  destruct Hstill as [-> | [a ->]].
  - destruct (_ && _); [|now left].
    right. now exists (d + _adjusted_lead_time supplier).
  - rewrite andb_false_r. right. now exists a.
Qed.

Lemma dashboard_run_loop_frame days :
  forall st,
  exists rows,
    ledger (run_loop policy supplier fc st days) = ledger st ++ rows /\
    map entry_date rows = days /\
    Forall (row_ok policy supplier) rows /\
    (pending_orders st = [] ->
     match rows with
     | [] => True
     | e :: _ => entry_opening_stock e = current_stock st
     end) /\
    (one_order_of q (pending_orders st) ->
     chained q (current_stock st) rows /\
     one_order_of q (pending_orders (run_loop policy supplier fc st days))).
Proof.
  unfold run_loop.
  induction days as [|d days IH]; intros st; simpl.
  - exists []. rewrite app_nil_r. repeat split; auto.
  - destruct (IH (day_step policy supplier fc st d))
      as (rows & Hl & Hd & Hrows & _ & Hchain).
    destruct (dashboard_day_step_row st d)
      as (e & Hle & Hde & Hopen & Hclose & Hrow).
    exists (e :: rows).
    split; [rewrite Hl, Hle, <- app_assoc; reflexivity|].
    split; [simpl; now rewrite Hde, Hd|].
    split; [now apply Forall_cons|].
    split.
    + intros Hnil. rewrite Hopen, Hnil. unfold arrived_on. simpl. lia.
    + intros Hone.
      destruct (Hchain (dashboard_day_step_one_order st d Hone))
        as [Hch Hfinal].
      split; [|exact Hfinal].
      simpl. split; [|now rewrite Hclose].
      rewrite Hopen.
      destruct (arrived_on_one_order _ d Hone) as [-> | ->]; [left|right]; lia.
Qed.

End DashboardFrame.

Section SimulateFrame.

Import Dashboard DashboardSpec DashboardData DashboardLaws.

Variable calc : Policy -> Supplier -> list ForecastRow -> Z -> result Z.

Lemma head_filter_In {A} (f : A -> bool) (l : list A) (x : A) :
  head (List.filter f l) = Some x -> In x l /\ f x = true.
Proof.
  intros H. apply filter_In.
  destruct (List.filter f l) as [|y rest]; [discriminate|].
  injection H as ->. now left.
Qed.

(** What a frame that [simulate_product] builds was built from. *)
Lemma simulate_body_Ok loader pid params df :
  simulate_body calc loader pid params = Ok df <->
  exists base supplier stock,
    policy_row loader pid = Some base /\
    supplier_row loader pid (scenario_supplier_id base params)
    = Some supplier /\
    calc (scenario_policy base params) supplier (product_forecast loader pid)
         (scenario_buffer_days base params) = Ok stock /\
    df = ledger (run_loop (scenario_policy base params) supplier
                   (product_forecast loader pid) (mkLoop stock [] [])
                   (date_range start_date
                      (start_date + (30 + _adjusted_lead_time supplier)))).
Proof.
  unfold simulate_body, policy_row, supplier_row, scenario_supplier_id,
    scenario_policy, scenario_buffer_days, product_forecast.
  unfold mbind, result_bind.
  destruct (List.filter _ (policies loader)) as [|base pols]; simpl.
  - split; [discriminate|]. intros (? & ? & ? & ? & _). discriminate.
  - destruct (apply_scenario base params) as [[sid policy] buffer] eqn:Happ.
    simpl.
    destruct (List.filter (fun r => String.eqb (supplier_id r) sid) _)
      as [|supplier sups] eqn:Hsups; simpl.
    + split; [discriminate|].
      intros (? & ? & ? & [= <-] & Hs & _).
      rewrite Happ in Hs. simpl in Hs. rewrite Hsups in Hs. discriminate.
    + destruct (calc policy supplier _ buffer) as [stock|e] eqn:Hcalc.
      * split.
        -- intros [= <-]. exists base, supplier, stock.
           rewrite Happ. simpl. rewrite Hsups. now rewrite Hcalc.
        -- intros (? & ? & ? & [= <-] & Hs & Hc & ->).
           rewrite Happ in Hs, Hc |- *. simpl in Hs, Hc |- *.
           rewrite Hsups in Hs. injection Hs as <-.
           rewrite Hcalc in Hc. now injection Hc as <-.
      * split; [discriminate|].
        intros (? & ? & ? & [= <-] & Hs & Hc & _).
        rewrite Happ in Hs, Hc. simpl in Hs, Hc.
        rewrite Hsups in Hs. injection Hs as <-. congruence.
Qed.

Lemma policy_row_In loader pid base :
  policy_row loader pid = Some base ->
  In base (policies loader) /\ product_id base = pid.
Proof.
  intros H. apply head_filter_In in H as [Hin Heq].
  split; [exact Hin | now apply String.eqb_eq].
Qed.



End SimulateFrame.

Section SimulateFrameWitness.

Import Dashboard DashboardSpec DashboardData DashboardLaws.


End SimulateFrameWitness.

Section SimulateRows.

Import Dashboard DashboardSpec DashboardData DashboardLaws.

Variable calc : Policy -> Supplier -> list ForecastRow -> Z -> result Z.

Lemma scenario_policy_fields base params :
  let policy := scenario_policy base params in
  eoq policy = default (eoq base) (params ≫= param_eoq) /\
  reorder_point policy
  = default (reorder_point base) (params ≫= param_reorder_point) /\
  unit_cost policy = unit_cost base /\
  product_id policy = product_id base.
Proof.
  unfold scenario_policy, apply_scenario.
  destruct params as [[[?|] [?|] [?|] [?|] [?|]]|]; simpl; auto.
Qed.

(** X14. The rows of a frame that [simulate_product] builds keep the
    books: in every row units sold and unmet demand add up to the demand,
    units sold and closing stock to the opening stock, the holding cost
    is the closing stock times the unit cost times 0.20/365, the restock
    quantity is 0 or the larger of the order quantity and the supplier's
    minimum with the closing stock below the reorder point, and the
    ordering cost is 500 exactly when something was ordered.  The first
    day opens with the initial stock, and every later day with the stock
    the day before closed with, or with that stock and one delivery of
    the order quantity.  The order quantity and the reorder point are
    those of the scenario where it gives them, else those of the policy
    file, and the unit cost is always that of the file. *)
Theorem simulate_frame_rows :
  forall loader pid params df,
    simulate_body calc loader pid params = Ok df ->
    exists base supplier stock,
      policy_row loader pid = Some base /\
      supplier_row loader pid (scenario_supplier_id base params)
      = Some supplier /\
      calc (scenario_policy base params) supplier
           (product_forecast loader pid) (scenario_buffer_days base params)
      = Ok stock /\
      let policy := scenario_policy base params in
      eoq policy = default (eoq base) (params ≫= param_eoq) /\
      reorder_point policy
      = default (reorder_point base) (params ≫= param_reorder_point) /\
      unit_cost policy = unit_cost base /\
      Forall (row_ok policy supplier) df /\
      match df with
      | [] => True
      | e :: _ => entry_opening_stock e = stock
      end /\
      chained (Z.max (eoq policy) (MOQ supplier)) stock df.
Proof.
  intros loader pid params df Hbody.
  apply simulate_body_Ok in Hbody
    as (base & supplier & stock & Hbase & Hsup & Hcalc & ->).
  exists base, supplier, stock.
  destruct (scenario_policy_fields base params) as (He & Hr & Hu & _).
  destruct (dashboard_run_loop_frame (scenario_policy base params) supplier
              (product_forecast loader pid)
              (date_range start_date
                 (start_date + (30 + _adjusted_lead_time supplier)))
              (mkLoop stock [] []))
    as (rows & Hl & _ & Hrows & Hfirst & Hchain).
  simpl in Hl. rewrite Hl.
  repeat (split; [assumption|]).
  cbv zeta.
  repeat (split; [assumption|]).
  split; [now apply Hfirst|].
  apply Hchain. now left.
Qed.

End SimulateRows.

Section SimulateRowsWitness.

Import Dashboard DashboardSpec DashboardData DashboardLaws.

Lemma simulate_frame_rows_witness :
  exists df,
    simulate_body (fun _ _ _ _ => Ok 60) Sample.dashboard_loader "P1" None
    = Ok df /\
    Forall (row_ok Sample.dashboard_policy Sample.dashboard_supplier) df.
Proof.
  destruct (simulate_body (fun _ _ _ _ => Ok 60) Sample.dashboard_loader
                          "P1" None) as [df|e] eqn:Heq;
    [|vm_compute in Heq; discriminate].
  exists df. split; [reflexivity|].
  destruct (simulate_frame_rows (fun _ _ _ _ => Ok 60)
              Sample.dashboard_loader "P1"%string None df Heq)
    as (base & supplier & stock & Hbase & Hsup & _ & _ & _ & _ & Hrows & _).
  injection Hbase as <-. injection Hsup as <-. exact Hrows.
Defined.

End SimulateRowsWitness.

(** ** The life of a dashboard order *)

Section DashboardOrderLife.

Import Dashboard DashboardSpec DashboardData DashboardLaws.

Variable policy : Policy.
Variable supplier : Supplier.
Variable fc : list ForecastRow.




End DashboardOrderLife.

Section DashboardOrderLifeWitness.

Import Dashboard DashboardSpec DashboardData DashboardLaws.


End DashboardOrderLifeWitness.

(** ** What the dashboard does not read *)

Section SafetyStock.

Import Dashboard DashboardSpec DashboardData DashboardLaws.

Variable calc : Policy -> Supplier -> list ForecastRow -> Z -> result Z.
Hypothesis calc_reads : reads_reorder_point_only calc.








End SafetyStock.

Section SafetyStockWitness.

Import Dashboard DashboardSpec DashboardData DashboardLaws.


End SafetyStockWitness.

(** ** The merged ledger *)

Section MergedLedger.

Import Dashboard DashboardSpec DashboardData DashboardLaws.

Lemma merge_row_fst {L R} (l : L) (matches : list R) :
  let rows := match matches with
              | [] => [(l, None)]
              | r :: rest => map (fun r0 => (l, Some r0)) (r :: rest)
              end in
  exists n,
    map fst rows = l :: repeat l n /\
    length rows = S n /\
    ((length matches <= 1)%nat -> n = 0%nat).
Proof.
  destruct matches as [|r rest]; cbv zeta; [exists 0%nat; simpl; auto|].
  exists (length rest). rewrite length_map, map_map. cbn [fst].
  split; [|simpl; split; [reflexivity | lia]].
  simpl. f_equal. clear.
  induction rest as [|? ? IH]; simpl; [reflexivity | now rewrite IH].
Qed.

Lemma left_merge_fst {L R} (same_key : L -> R -> bool) left right :
  (length left <= length (left_merge same_key left right))%nat /\
  (forall x, In x (map fst (left_merge same_key left right)) <-> In x left) /\
  ((forall l, In l left ->
              (length (List.filter (same_key l) right) <= 1)%nat) ->
   map fst (left_merge same_key left right) = left).
Proof.
  unfold left_merge.
  induction left as [|l left (IHlen & IHin & IHeq)]; cbn [flat_map].
  - simpl. split; [lia|]. split; [tauto|]. reflexivity.
  - rewrite length_app, map_app. cbn [length].
    destruct (merge_row_fst l (List.filter (same_key l) right))
      as (n & Hmap & Hlen & Hone1).
    rewrite Hmap, Hlen.
    split; [lia|]. split.
    + intros x. rewrite in_app_iff, IHin. cbn [In]. split.
      * intros [[H | H] | H]; [now left | | now right].
        apply repeat_spec in H. now left.
      * intros [<- | H]; [left; now left | now right].
    + intros Hone.
      rewrite IHeq by (intros; apply Hone; now right).
      rewrite (Hone1 (Hone l (or_introl eq_refl))). reflexivity.
Qed.

Lemma left_merge_snd {L R} (same_key : L -> R -> bool) left right l o :
  In (l, o) (left_merge same_key left right) ->
  match o with
  | Some r => In r right /\ same_key l r = true
  | None => forall r, In r right -> same_key l r = false
  end.
Proof.
  unfold left_merge. rewrite in_flat_map.
  intros (l0 & _ & Hin).
  destruct (List.filter (same_key l0) right) as [|r0 rest] eqn:Hf.
  - destruct Hin as [[= <- <-] | []].
    intros r Hr. destruct (same_key l0 r) eqn:Hk; [|reflexivity].
    assert (Hin : In r (List.filter (same_key l0) right))
      by (apply filter_In; auto).
    rewrite Hf in Hin. destruct Hin.
  - apply in_map_iff in Hin as (r & [= <- <-] & Hr).
    rewrite <- Hf in Hr. now apply filter_In in Hr.
Qed.

Lemma filter_key_NoDup {A} (key : A -> string) (k : string) (l : list A) :
  NoDup (map key l) ->
  (length (List.filter (fun x => String.eqb k (key x)) l) <= 1)%nat.
Proof.
  induction l as [|x l IH]; simpl; intros Hnd; [lia|].
  apply NoDup_cons in Hnd as [Hx Hnd].
  destruct (String.eqb_spec k (key x)) as [-> | Hne]; [|now apply IH].
  assert (Hnone : List.filter (fun y => String.eqb (key x) (key y)) l = []).
  { clear IH Hnd. induction l as [|y l IH]; simpl; [reflexivity|].
    destruct (String.eqb_spec (key x) (key y)) as [Heq | _].
    - exfalso. apply Hx. rewrite Heq. now left.
    - apply IH. intros Hin. apply Hx. now right. }
  rewrite Hnone. simpl. lia.
Qed.

(** X17. [get_merged_ledger] returns nothing when the ledger, the policy
    file or the supplier file is empty.  Otherwise it keeps every row of
    the ledger, so the merged frame has at least as many rows; each of
    its rows is a ledger row with the reorder point and safety stock of a
    policy of the same product, and the MOQ, lead time, reliability and
    product of a supplier of the same id, or with these columns empty
    when the product (the supplier id) is in no row of the policy
    (supplier) file.  When no product has two policies and no supplier id
    two rows, the merged rows are the ledger rows, one for one and in
    order. *)
Theorem merged_ledger_rows :
  forall rows loader,
    let merged := get_merged_ledger rows loader in
    (rows = [] \/ policies loader = [] \/ suppliers loader = [] ->
     merged = []) /\
    (rows <> [] -> policies loader <> [] -> suppliers loader <> [] ->
     (length rows <= length merged)%nat /\
     (forall l, In l rows <-> In l (map merged_ledger merged)) /\
     (forall m, In m merged ->
        match merged_policy m with
        | Some c => exists p, In p (policies loader) /\
                              product_id p = ledger_product_id (merged_ledger m) /\
                              c = policy_columns p
        | None => forall p, In p (policies loader) ->
                            product_id p <> ledger_product_id (merged_ledger m)
        end /\
        match merged_supplier m with
        | Some c => exists s, In s (suppliers loader) /\
                              supplier_id s = ledger_supplier_id (merged_ledger m) /\
                              c = supplier_columns s
        | None => forall s, In s (suppliers loader) ->
                            supplier_id s <> ledger_supplier_id (merged_ledger m)
        end) /\
     (NoDup (map product_id (policies loader)) ->
      NoDup (map supplier_id (suppliers loader)) ->
      map merged_ledger merged = rows)).
Proof.
  intros rows loader. cbv zeta. split.
  - unfold get_merged_ledger.
    intros [-> | [-> | ->]]; [reflexivity| |].
    + now destruct rows.
    + now destruct rows, (policies loader).
  - intros Hrows Hpols Hsups.
    set (key1 := fun (l : LedgerRow) (p : Policy) =>
                   String.eqb (ledger_product_id l) (product_id p)).
    set (key2 := fun (m : LedgerRow * option Policy) (s : Supplier) =>
                   String.eqb (ledger_supplier_id (fst m)) (supplier_id s)).
    set (m1 := left_merge key1 rows (policies loader)).
    set (m2 := left_merge key2 m1 (suppliers loader)).
    assert (Hm : get_merged_ledger rows loader
                 = map (fun m => mkMerged (fst (fst m))
                           (option_map policy_columns (snd (fst m)))
                           (option_map supplier_columns (snd m))) m2).
    { unfold get_merged_ledger.
      destruct rows; [congruence|].
      destruct (policies loader); [congruence|].
      destruct (suppliers loader); [congruence|]. reflexivity. }
    rewrite Hm.
    destruct (left_merge_fst key1 rows (policies loader))
      as (Hlen1 & Hin1 & Heq1).
    destruct (left_merge_fst key2 m1 (suppliers loader))
      as (Hlen2 & Hin2 & Heq2).
    fold m1 in Hlen1, Hin1, Heq1. fold m2 in Hlen2, Hin2, Heq2.
    assert (Hproj : map merged_ledger
                      (map (fun m => mkMerged (fst (fst m))
                              (option_map policy_columns (snd (fst m)))
                              (option_map supplier_columns (snd m))) m2)
                    = map fst (map fst m2)).
    { rewrite !map_map. reflexivity. }
    split; [rewrite length_map; lia|].
    split; [|split].
    + intros l. rewrite Hproj, <- Hin1. split.
      * intros Hl. apply in_map_iff in Hl as (x & <- & Hx).
        apply in_map. now apply Hin2.
      * intros Hl. apply in_map_iff in Hl as (x & <- & Hx).
        apply in_map. now apply Hin2.
    + intros m Hin. apply in_map_iff in Hin as ([[l op] os] & <- & Hin).
      cbn [merged_policy merged_supplier merged_ledger fst snd].
      split.
      * assert (Hop : In (l, op) m1)
          by (apply Hin2; apply (in_map fst) in Hin; exact Hin).
        apply left_merge_snd in Hop.
        destruct op as [p|]; simpl.
        -- destruct Hop as [Hp Hk]. exists p.
           split; [exact Hp|]. split; [|reflexivity].
           symmetry. now apply String.eqb_eq.
        -- intros p Hp Heq. specialize (Hop p Hp).
           unfold key1 in Hop. rewrite Heq, String.eqb_refl in Hop.
           discriminate.
      * apply left_merge_snd in Hin.
        destruct os as [s|]; simpl.
        -- destruct Hin as [Hs Hk]. exists s.
           split; [exact Hs|]. split; [|reflexivity].
           symmetry. now apply String.eqb_eq.
        -- intros s Hs Heq. specialize (Hin s Hs).
           unfold key2 in Hin. cbn [fst] in Hin.
           rewrite Heq, String.eqb_refl in Hin. discriminate.
    + intros Hnd1 Hnd2. rewrite Hproj.
      rewrite Heq2 by (intros; now apply filter_key_NoDup).
      apply Heq1. intros. now apply filter_key_NoDup.
Qed.

Lemma merged_ledger_rows_witness :
  map merged_ledger (get_merged_ledger SampleLedger.rows Sample.dashboard_loader)
  = SampleLedger.rows.
Proof.
  assert (Hrows : SampleLedger.rows <> []) by discriminate.
  assert (Hpols : policies Sample.dashboard_loader <> []) by discriminate.
  assert (Hsups : suppliers Sample.dashboard_loader <> []) by discriminate.
  destruct (proj2 (merged_ledger_rows SampleLedger.rows
                     Sample.dashboard_loader) Hrows Hpols Hsups)
    as (_ & _ & _ & Heq).
  apply Heq; simpl;
    (apply NoDup_cons_2; [apply not_elem_of_nil | apply NoDup_nil_2]).
Defined.

End MergedLedger.
